(** * ENPC trading game: the browser client of the trading terminal

    A shallow embedding of the client-side JavaScript modules
    ([constants.js], [ui.js], [market.js], [portfolio.js],
    [leaderboard.js], [chart.js], [ws.js], [ticker.js]) and the properties
    of the session, market-data, order and view-model layers.

    Conventions of the embedding:
    - a JavaScript number is an IEEE-754 double, here a primitive [float];
      integer quantities produced by [parseInt] are in [Z];
    - a JavaScript object used as a dictionary is a [gmap string _]; a key
      whose value is [undefined] or [null] is an absent key, since every
      reader in the sources treats the two alike ([=== undefined || === null],
      [?? null]);
    - the document is the finite map from element ids to elements that
      [document.getElementById] exposes;
    - text produced by string concatenation and template literals is kept
      as a list of fragments, so that a number formatted by the browser
      ([toFixed], [toString], [toLocaleTimeString]) stays a number;
    - a handler that can raise a [TypeError] on a missing element returns a
      [completion], which keeps the effects performed before the raise;
    - a table row is built by assigning a template literal to [innerHTML]:
      the HTML parser lays out the cells of the template when the strings
      interpolated in it are [plain]; when one of them holds markup the
      row is kept as the text assigned ([Markup]), and the elements that
      the parser makes of it are not part of the model;
    - [obj[name]] on a plain object finds its own properties first and
      then those of [Object.prototype] ([Js.inherited]). *)

From Stdlib Require Import ZArith Floats Ascii.
From stdpp Require Import base gmap strings list pretty.

(** ** JavaScript numbers *)

Module Js.

(** [a > b], [a < b], [a >= b] and [a == b] on numbers. *)
Definition gt (a b : float) : bool := PrimFloat.ltb b a.
Definition lt (a b : float) : bool := PrimFloat.ltb a b.
Definition ge (a b : float) : bool := PrimFloat.leb b a.
Definition eq (a b : float) : bool := PrimFloat.eqb a b.

(** Relational operators convert [null] to [0]. *)
Definition toNumber (v : option float) : float := default 0%float v.

(** [a > b] on array slots that hold a number or [null]. *)
Definition gt_slot (a b : option float) : bool := gt (toNumber a) (toNumber b).

(** The properties that a plain object inherits from [Object.prototype],
    each with its [length]: the number of parameters of a function, and
    none for [__proto__], which is an object. None of them has indexed
    elements. *)
Definition inherited : list (string * option nat) :=
  [("constructor", Some 1); ("__proto__", None);
   ("__defineGetter__", Some 2); ("__defineSetter__", Some 2);
   ("__lookupGetter__", Some 1); ("__lookupSetter__", Some 1);
   ("hasOwnProperty", Some 1); ("isPrototypeOf", Some 1);
   ("propertyIsEnumerable", Some 1); ("toLocaleString", Some 0);
   ("toString", Some 0); ("valueOf", Some 0)].

End Js.

(** ** Text fragments and the document *)

Inductive frag : Type :=
| Lit (s : string)     (** literal text *)
| Num (x : float)      (** a number converted by string interpolation *)
| Fixed2 (x : float)   (** [x.toFixed(2)] *)
| HhMm (x : float).    (** [new Date(x).toLocaleTimeString('en-US', ...)] *)

Definition html : Type := list frag.

Record td : Type := Td { td_class : string; td_html : html }.

(** A string that the HTML parser reads as the text it is: it holds no
    [<], which opens a tag or a comment, no [&], which opens a character
    reference, no NUL and no carriage return, which the parser drops or
    replaces. *)
Definition markup_char (a : ascii) : bool :=
  bool_decide (a ∈ ["<"; "&"; "000"; "013"]%char).

Definition plain (s : string) : bool :=
  forallb (λ a, negb (markup_char a)) (String.list_ascii_of_string s).

(** Children appended with [appendChild] / [insertBefore]: table rows and
    log entries. A row whose [innerHTML] is a template filled with [plain]
    strings is [Tr], with the cells of the template; a row filled with a
    string that holds markup is [Markup], with the text assigned to
    [innerHTML] (the white space between its cells left out, attribute
    values in single quotes): its cells and elements are those that the
    HTML parser makes of that text. A log entry is [Div], with the text
    assigned to its [innerHTML]. *)
Inductive child : Type :=
| Tr (background : string) (cells : list td)
| Div (className : string) (inner : html)
| Markup (background : string) (innerHTML : html).

Record element : Type := Element {
  textContent : html;
  classList : list string;
  disabled : bool;
  value : string;
  children : list child
}.

Definition blank : element :=
  {| textContent := []; classList := []; disabled := false; value := "";
     children := [] |}.

Definition set_textContent (h : html) (e : element) : element :=
  {| textContent := h; classList := classList e; disabled := disabled e;
     value := value e; children := [] |}.

Definition set_classList (c : list string) (e : element) : element :=
  {| textContent := textContent e; classList := c; disabled := disabled e;
     value := value e; children := children e |}.

Definition set_disabled (b : bool) (e : element) : element :=
  {| textContent := textContent e; classList := classList e; disabled := b;
     value := value e; children := children e |}.

Definition set_children (c : list child) (e : element) : element :=
  {| textContent := textContent e; classList := classList e;
     disabled := disabled e; value := value e; children := c |}.

(** [el.innerHTML = ""] *)
Definition clear_innerHTML (e : element) : element :=
  set_children [] (set_textContent [] e).

(** [classList.add], [classList.remove], [classList.toggle(token, force)] *)
Definition class_add (tok : string) (c : list string) : list string :=
  if bool_decide (tok ∈ c) then c else c ++ [tok].

Definition class_remove (tok : string) (c : list string) : list string :=
  filter (λ t, t ≠ tok) c.

Definition class_toggle (tok : string) (force : bool) (c : list string) : list string :=
  if force then class_add tok c else class_remove tok c.

Definition add_class (tok : string) (e : element) : element :=
  set_classList (class_add tok (classList e)) e.

Definition remove_class (tok : string) (e : element) : element :=
  set_classList (class_remove tok (classList e)) e.

Definition toggle_class (tok : string) (force : bool) (e : element) : element :=
  set_classList (class_toggle tok force (classList e)) e.

Definition has_class (tok : string) (e : element) : bool :=
  bool_decide (tok ∈ classList e).

Abbreviation dom := (gmap string element).

(** ** Abrupt completion *)

Inductive completion (S : Type) : Type :=
| Normal (s : S)
| Thrown (s : S).
Arguments Normal {S} s.
Arguments Thrown {S} s.

Definition state_of {S} (c : completion S) : S :=
  match c with Normal s | Thrown s => s end.

Definition and_then {S} (c : completion S) (k : S → completion S) : completion S :=
  match c with
  | Normal s => k s
  | Thrown s => Thrown s
  end.

Notation "c ;;; k" := (and_then c k) (at level 61, left associativity).

(** [byId(id).field = v]: raises when the element is missing. The guarded
    form [const el = byId(id); if (el) el.field = v] is [alter f id]. *)
Definition assign (id : string) (f : element → element) (d : dom) : completion dom :=
  match d !! id with
  | Some e => Normal (<[id := f e]> d)
  | None => Thrown d
  end.

(** ** constants.js *)

Module Constants.

Record rules : Type := Rules {
  startingCapital : float;
  tickSeconds : float;
  durationSec : float
}.

Definition DEFAULTS : rules :=
  {| startingCapital := 10000; tickSeconds := 2; durationSec := 15 * 60 |}.

Definition ASSETS : list string :=
  ["OIL"; "GOLD"; "ELECTRONICS"; "RICE"; "PLUMBER"].

Definition MAX_POINTS : nat := 300.

Definition HISTORY : gmap string (list (option float)) :=
  <["OIL" := []]> (<["GOLD" := []]> (<["ELECTRONICS" := []]>
    (<["RICE" := []]> (<["PLUMBER" := []]> ∅)))).

Definition LABELS : list string := [].

End Constants.

(** ** ui.js *)

Module Ui.

(** [document.getElementById(id)] among the elements of the page and
    those that the scripts create with an id of their own. An element that
    only the markup of a string written into [innerHTML] brings in (a
    [Markup] row, a log entry) is not among them. *)
Definition byId (id : string) (d : dom) : option element := d !! id.

(** [log(m)]; [time] is [new Date().toLocaleTimeString()]. *)
Definition log (time : string) (m : html) (d : dom) : dom :=
  match byId "log" d with
  | None => d
  | Some el =>
      let logEntry := Div "log-entry" (Lit "[" :: Lit time :: Lit "] " :: m) in
      <["log" := set_children (take 50 (logEntry :: children el)) el]> d
  end.

Definition setWsStatus (ok : bool) (d : dom) : dom :=
  alter (λ s, set_classList ["badge"; if ok then "green" else "red"]
                (set_textContent [Lit (if ok then "connected" else "disconnected")] s))
        "wsStatus" d.

Definition showLobbyCard (show : bool) (d : dom) : dom :=
  match byId "lobbyCard" d with
  | None => d
  | Some el =>
      let d := <["lobbyCard" := toggle_class "hidden" (negb show) el]> d in
      if show then alter (add_class "hidden") "setupScreen" d else d
  end.

Definition showGameArea (show : bool) (d : dom) : dom :=
  match byId "gameArea" d with
  | None => d
  | Some el =>
      let d := <["gameArea" := toggle_class "hidden" (negb show) el]> d in
      if show then
        alter (add_class "hidden") "lobbyCard"
          (alter (add_class "hidden") "setupScreen" d)
      else d
  end.

Definition hideSetupScreen (d : dom) : dom :=
  alter (add_class "hidden") "setupScreen" d.

Record player : Type := Player { name : string; userId : string; ready : bool }.

(** The row of a player: [tr.innerHTML] is the template filled with the
    name and the user id as they come. *)
Definition playerRow (p : player) : child :=
  let mark := if ready p then "✅" else "❌" in
  if plain (name p) && plain (userId p) then
    Tr "" [Td "" [Lit (name p)];
           Td "muted" [Lit (userId p)];
           Td "" [Lit mark]]
  else
    Markup "" [Lit "<td>"; Lit (name p); Lit "</td><td class='muted'>";
               Lit (userId p); Lit "</td><td>"; Lit mark; Lit "</td>"].

Definition renderPlayers (l : option (list player)) (d : dom) : dom :=
  alter (λ tb, set_children (playerRow <$> default [] l) (clear_innerHTML tb))
        "playersTbody" d.

(** An element is on screen when it exists and does not carry the
    [hidden] class. *)
Definition visible (id : string) (d : dom) : bool :=
  match byId id d with
  | Some el => negb (has_class "hidden" el)
  | None => false
  end.

End Ui.

(** ** market.js *)

Module Market.
Import Constants.

(** Module state: [previousPrices] and [priceHistory]. *)
Record state : Type := State {
  previousPrices : gmap string float;
  priceHistory : gmap string (list float)
}.

(** [ASSETS.forEach(asset => { priceHistory[asset] = []; })] *)
Definition init : state :=
  {| previousPrices := ∅;
     priceHistory := foldl (λ h asset, <[asset := []]> h) ∅ ASSETS |}.

Definition priceCell : element :=
  {| textContent := [Lit "-"]; classList := ["price-cell"]; disabled := false;
     value := ""; children := [] |}.

Definition changeCell : element :=
  {| textContent := [Lit "-"]; classList := ["price-change"]; disabled := false;
     value := ""; children := [] |}.

Definition initMarketData (d : dom) : dom :=
  match Ui.byId "market_rows" d with
  | None => d
  | Some marketTbody =>
      foldl (λ d asset,
               <["spark_" +:+ asset := set_classList ["sparkline"] blank]>
               (<["mchgp_" +:+ asset := changeCell]>
               (<["mchg_" +:+ asset := changeCell]>
               (<["mp_" +:+ asset := priceCell]>
               (<["market_row_" +:+ asset := blank]> d)))))
            (<["market_rows" := clear_innerHTML marketTbody]> d) ASSETS
  end.

Definition initMarket (d : dom) : dom :=
  match Ui.byId "rows" d with
  | None => d
  | Some rowsTbody =>
      initMarketData
        (foldl (λ d asset,
                  <["btn_sell_" +:+ asset :=
                      set_classList ["btn-sell"] (set_textContent [Lit "SELL"] blank)]>
                  (<["btn_buy_" +:+ asset :=
                      set_classList ["btn-buy"] (set_textContent [Lit "BUY"] blank)]>
                  (<["q_" +:+ asset :=
                      {| textContent := []; classList := []; disabled := false;
                         value := "10"; children := [] |}]>
                  (<["p_" +:+ asset := priceCell]> d))))
               (<["rows" := clear_innerHTML rowsTbody]> d) ASSETS)
  end.

(** [(x >= 0 ? '+' : '') + x.toFixed(2)] *)
Definition signed (x : float) : html :=
  [Lit (if Js.ge x 0 then "+" else ""); Fixed2 x].

(** ['price-change up'], ['price-change down'] or ['price-change'] *)
Definition changeClass (x : float) : list string :=
  if Js.gt x 0 then ["price-change"; "up"]
  else if Js.lt x 0 then ["price-change"; "down"]
  else ["price-change"].

(** The flash animation of a market row for a price change. *)
Definition flash (change : float) (marketRow : element) : element :=
  let marketRow := remove_class "flash-red" (remove_class "flash-green" marketRow) in
  if Js.gt change 0 then add_class "flash-green" marketRow
  else if Js.lt change 0 then add_class "flash-red" marketRow
  else marketRow.

(** [priceHistory[asset].push(priceValue)] followed by the trim to the
    last 20 points. *)
Definition pushHistory (priceValue : float) (h : list float) : list float :=
  let h := h ++ [priceValue] in
  if bool_decide (20 < length h) then drop 1 h else h.

(** The body of [ASSETS.forEach] in [updatePrices]. [drawSparkline] only
    paints the canvas of the asset from [priceHistory] and is left out. *)
Definition updateAsset (priceMap : gmap string float) (s : state * dom)
    (asset : string) : state * dom :=
  match priceMap !! asset with
  | None => s
  | Some newPrice =>
      let prevPrice := previousPrices s.1 !! asset in
      let priceValue := newPrice in
      let d := alter (set_textContent [Fixed2 priceValue]) ("p_" +:+ asset) s.2 in
      let d :=
        match Ui.byId ("mp_" +:+ asset) d with
        | None => d
        | Some marketCell =>
            let d := <["mp_" +:+ asset := set_textContent [Fixed2 priceValue] marketCell]> d in
            match prevPrice with
            | Some prevPrice =>
                let change := (priceValue - prevPrice)%float in
                let changePct := (change / prevPrice * 100)%float in
                let d :=
                  alter (λ c, set_classList (changeClass change)
                                (set_textContent (signed change) c))
                        ("mchg_" +:+ asset) d in
                let d :=
                  alter (λ c, set_classList (changeClass changePct)
                                (set_textContent (signed changePct ++ [Lit "%"]) c))
                        ("mchgp_" +:+ asset) d in
                alter (flash change) ("market_row_" +:+ asset) d
            | None =>
                alter (set_textContent [Lit "-"]) ("mchgp_" +:+ asset)
                  (alter (set_textContent [Lit "-"]) ("mchg_" +:+ asset) d)
            end
        end in
      let h := pushHistory priceValue (default [] (priceHistory s.1 !! asset)) in
      ({| previousPrices := <[asset := priceValue]> (previousPrices s.1);
          priceHistory := <[asset := h]> (priceHistory s.1) |}, d)
  end.

Definition updatePrices (priceMap : option (gmap string float))
    (s : state * dom) : state * dom :=
  match priceMap with
  | None => s
  | Some priceMap => foldl (updateAsset priceMap) s ASSETS
  end.

End Market.

(** ** portfolio.js *)

Module Portfolio.

Definition getPnLClass (v : float) : string :=
  if Js.gt v 0 then "pnl-positive"
  else if Js.lt v 0 then "pnl-negative"
  else "pnl-neutral".

Definition formatPnL (v : float) : html :=
  [Lit (if Js.ge v 0 then "+" else ""); Fixed2 v].

Record position : Type := Position {
  pos_asset : string;
  pos_qty : float;
  avg : float;
  price : float;
  mktValue : float;
  pos_uPnL : float
}.

Record trade : Type := Trade {
  ts : float;
  asset : string;
  side_open : string;
  qty : float;
  realized_pnl : float
}.

Record portfolio : Type := Portfolio {
  cash : float;
  equity : float;
  uPnL : float;
  realizedPnL : float;
  positions : option (list position);
  trades : option (list trade)
}.

Definition positionRow (row : position) : child :=
  let pnlPct := ((price row - avg row) / avg row * 100)%float in
  let pnlClass := getPnLClass (pos_uPnL row) in
  if plain (pos_asset row) then
    Tr "" [Td "" [Lit (pos_asset row)];
           Td "" [Num (pos_qty row)];
           Td "" [Fixed2 (avg row)];
           Td "" [Fixed2 (price row)];
           Td "" [Fixed2 (mktValue row)];
           Td pnlClass (formatPnL (pos_uPnL row));
           Td pnlClass (formatPnL pnlPct ++ [Lit "%"])]
  else
    Markup ""
      ([Lit "<td><strong>"; Lit (pos_asset row); Lit "</strong></td><td>";
        Num (pos_qty row); Lit "</td><td>"; Fixed2 (avg row); Lit "</td><td>";
        Fixed2 (price row); Lit "</td><td>"; Fixed2 (mktValue row);
        Lit "</td><td class='"; Lit pnlClass; Lit "'>"]
       ++ formatPnL (pos_uPnL row)
       ++ [Lit "</td><td class='"; Lit pnlClass; Lit "'>"]
       ++ formatPnL pnlPct ++ [Lit "%</td>"]).

Definition tradeRow (t : trade) : child :=
  let realizedPnL := realized_pnl t in
  let pnlClass := getPnLClass realizedPnL in
  let sideClass := if String.eqb (side_open t) "BUY" then "pnl-positive"
                   else "pnl-negative" in
  if plain (asset t) && plain (side_open t) then
    Tr "" [Td "" [HhMm (ts t * 1000)];
           Td "" [Lit (asset t)];
           Td sideClass [Lit (side_open t)];
           Td "" [Num (qty t)];
           Td pnlClass (formatPnL realizedPnL)]
  else
    Markup ""
      ([Lit "<td>"; HhMm (ts t * 1000); Lit "</td><td><strong>"; Lit (asset t);
        Lit "</strong></td><td class='"; Lit sideClass; Lit "'>";
        Lit (side_open t); Lit "</td><td>"; Num (qty t);
        Lit "</td><td class='"; Lit pnlClass; Lit "'>"]
       ++ formatPnL realizedPnL ++ [Lit "</td>"]).

(** [(p.trades || []).slice().reverse().slice(0, 5)] *)
Definition shownTrades (l : option (list trade)) : list trade :=
  take 5 (reverse (default [] l)).

Definition renderPortfolio (p : option portfolio) (d : dom) : dom :=
  match p with
  | None => d
  | Some p =>
      let d := alter (set_textContent [Fixed2 (cash p)]) "k_cash" d in
      let d := alter (set_textContent [Fixed2 (equity p)]) "k_equity" d in
      let d := alter (λ e, set_classList ["kpi-value"; "pnl-value"; getPnLClass (uPnL p)]
                             (set_textContent (formatPnL (uPnL p)) e)) "k_upnl" d in
      let d := alter (λ e, set_classList ["kpi-value"; "pnl-value"; getPnLClass (realizedPnL p)]
                             (set_textContent (formatPnL (realizedPnL p)) e)) "k_rpnl" d in
      let d := alter (set_textContent [Fixed2 (cash p)]) "k_cash_top" d in
      let d := alter (set_textContent [Fixed2 (equity p)]) "k_equity_top" d in
      let totalPnL := (uPnL p + realizedPnL p)%float in
      let d := alter (λ e, set_classList
                             ["pnl-value"; if Js.ge totalPnL 0 then "positive" else "negative"]
                             (set_textContent (formatPnL totalPnL) e)) "k_pnl_top" d in
      match Ui.byId "pos_rows" d with
      | None => d
      | Some posTb =>
          let d := <["pos_rows" :=
                       set_children (positionRow <$> default [] (positions p))
                         (clear_innerHTML posTb)]> d in
          match Ui.byId "trades_rows" d with
          | None => d
          | Some tradeTb =>
              <["trades_rows" :=
                  set_children (tradeRow <$> shownTrades (trades p))
                    (clear_innerHTML tradeTb)]> d
          end
      end
  end.

End Portfolio.

(** ** leaderboard.js *)

Module Leaderboard.

Definition getPnLClass (v : float) : string :=
  if Js.gt v 0 then "pnl-positive"
  else if Js.lt v 0 then "pnl-negative"
  else "pnl-neutral".

Definition formatPnL (v : float) : html :=
  [Lit (if Js.ge v 0 then "+" else ""); Fixed2 v].

Record entry : Type := Entry {
  name : string;
  equity : float;
  realizedPnL : float
}.

Definition rankDisplay (index : nat) : string :=
  match index with
  | 0 => "ðŸ¥‡ 1"
  | 1 => "ðŸ¥ˆ 2"
  | 2 => "ðŸ¥‰ 3"
  | _ => pretty (index + 1)
  end.

Definition row (index : nat) (r : entry) : child :=
  let totalPnL := realizedPnL r in
  let performance := totalPnL in
  let pnlClass := getPnLClass (realizedPnL r) in
  let perfClass := getPnLClass performance in
  let background := if bool_decide (index < 3) then "rgba(255, 149, 0, 0.1)" else "" in
  if plain (name r) then
    Tr background
       [Td "" [Lit (rankDisplay index)];
        Td "" [Lit (name r)];
        Td "" [Fixed2 (equity r)];
        Td pnlClass (formatPnL (realizedPnL r));
        Td perfClass (formatPnL performance)]
  else
    Markup background
      ([Lit "<td><strong>"; Lit (rankDisplay index); Lit "</strong></td><td><strong>";
        Lit (name r); Lit "</strong></td><td>"; Fixed2 (equity r);
        Lit "</td><td class='"; Lit pnlClass; Lit "'>"]
       ++ formatPnL (realizedPnL r)
       ++ [Lit "</td><td class='"; Lit perfClass; Lit "'><strong>"]
       ++ formatPnL performance ++ [Lit "</strong></td>"]).

Definition renderLeaderboard (rows : option (list entry)) (d : dom) : dom :=
  match Ui.byId "lb_rows" d with
  | None => d
  | Some tb =>
      <["lb_rows" := set_children (imap row (default [] rows)) (clear_innerHTML tb)]> d
  end.

End Leaderboard.

(** ** chart.js *)

Module Chart.
Import Constants.

(** The first dataset of the main chart. [data] names the series of
    [HISTORY] that the dataset aliases. *)
Record dataset : Type := Dataset {
  label : string;
  data : string;
  borderColor : string;
  backgroundColor : string
}.

Record state : Type := State {
  LABELS : list string;
  HISTORY : gmap string (list (option float));
  chart : option dataset;
  miniChart : bool;
  chartAsset : string
}.

Definition init : state :=
  {| LABELS := Constants.LABELS; HISTORY := Constants.HISTORY; chart := None;
     miniChart := false; chartAsset := "OIL" |}.

Definition set_chart (c : option dataset) (s : state) : state :=
  {| LABELS := LABELS s; HISTORY := HISTORY s; chart := c;
     miniChart := miniChart s; chartAsset := chartAsset s |}.

Definition initMiniChart (d : dom) (s : state) : state :=
  match Ui.byId "miniChart1" d with
  | None => s
  | Some canvas =>
      {| LABELS := LABELS s; HISTORY := HISTORY s; chart := chart s;
         miniChart := true; chartAsset := chartAsset s |}
  end.

Definition initChart (d : dom) (s : state) : state :=
  match Ui.byId "priceChart" d with
  | None => s
  | Some canvas =>
      initMiniChart d
        (set_chart (Some {| label := chartAsset s; data := chartAsset s;
                            borderColor := "#007aff";
                            backgroundColor := "rgba(0, 122, 255, 0.1)" |}) s)
  end.

(** Line and fill colours of a trend. *)
Definition lineColor (isUpTrend : bool) : string :=
  if isUpTrend then "#00c853" else "#ff3b30".

Definition fillColor (isUpTrend : bool) : string :=
  if isUpTrend then "rgba(0, 200, 83, 0.1)" else "rgba(255, 59, 48, 0.1)".

(** [data[i]] for an index inside the array. *)
Definition at_index (data : list (option float)) (i : nat) : option float :=
  mjoin (data !! i).

(** What [HISTORY[name]] evaluates to, besides [undefined]: a series of
    [HISTORY] itself, or a property inherited from [Object.prototype],
    with its [length]. *)
Inductive property : Type :=
| Series (series : list (option float))
| Inherited (len : option nat).

(** [HISTORY[name]] *)
Definition get (H : gmap string (list (option float))) (name : string)
    : option property :=
  match H !! name with
  | Some series => Some (Series series)
  | None => Inherited <$> (list_to_map Js.inherited : gmap string (option nat)) !! name
  end.

(** On an inherited property every indexed element is [undefined], and
    [undefined > undefined] is false. *)
Definition updateChartAsset (newAsset : string) (s : state) : completion state :=
  let s := {| LABELS := LABELS s; HISTORY := HISTORY s; chart := chart s;
              miniChart := miniChart s; chartAsset := newAsset |} in
  match chart s with
  | None => Normal s
  | Some c =>
      match get (HISTORY s) (chartAsset s) with
      | None => Thrown s
      | Some found =>
          let isUpTrend :=
            match found with
            | Series data =>
                bool_decide (2 ≤ length data)
                && Js.gt_slot (at_index data (length data - 1)) (at_index data 0)
            | Inherited _ => false
            end in
          Normal (set_chart (Some {| label := chartAsset s; data := chartAsset s;
                                     borderColor := lineColor isUpTrend;
                                     backgroundColor := fillColor isUpTrend |}) s)
      end
  end.

(** [arr.push(x); if (arr.length > MAX_POINTS) arr.shift();] *)
Definition push_shift {A} (x : A) (arr : list A) : list A :=
  let arr := arr ++ [x] in
  if bool_decide (MAX_POINTS < length arr) then drop 1 arr else arr.

(** [ts] is [new Date().toLocaleTimeString()]. *)
Definition pushTickToHistory (ts : string) (prices : option (gmap string float))
    (s : state) : completion state :=
  match prices with
  | None => Normal s
  | Some prices =>
      let s :=
        {| LABELS := push_shift ts (LABELS s);
           HISTORY := map_imap (λ asset arr, Some (push_shift (prices !! asset) arr))
                               (HISTORY s);
           chart := chart s; miniChart := miniChart s; chartAsset := chartAsset s |} in
      match chart s with
      | None => Normal s
      | Some c =>
          let aliased := data c in
          match get (HISTORY s) (chartAsset s) with
          | None => Thrown s
          | Some (Series data) =>
              if bool_decide (2 ≤ length data) then
                let isUpTrend :=
                  Js.gt_slot (at_index data (length data - 1))
                             (at_index data (length data - 2)) in
                Normal (set_chart (Some {| label := label c; data := aliased;
                                           borderColor := lineColor isUpTrend;
                                           backgroundColor := fillColor isUpTrend |}) s)
              else Normal s
          | Some (Inherited len) =>
              if bool_decide (2 ≤ default 0 len) then
                Normal (set_chart (Some {| label := label c; data := aliased;
                                           borderColor := lineColor false;
                                           backgroundColor := fillColor false |}) s)
              else Normal s
          end
      end
  end.

End Chart.

(** ** ws.js *)

Module Ws.
Import Constants.

(** [WebSocket.readyState] *)
Inductive readyState : Type := CONNECTING | OPEN | CLOSING | CLOSED.

(** Frames handed to [ws.send], before [JSON.stringify]. *)
Inductive outbound : Type :=
| CREATE_LOBBY (name : string) (rules : Constants.rules)
| JOIN_LOBBY (lobbyId name : string)
| SET_READY (ready : bool)
| START_GAME
| ORDER (asset side : string) (qty : Z).

(** Frames received, after [JSON.parse], by their [type]. *)
Inductive inbound : Type :=
| HELLO (userId : string)
| INVITE_CODE (lobbyId : string)
| LOBBY_STATE (lobbyId status hostId : string) (rules : Constants.rules)
    (players : option (list Ui.player))
| GAME_STARTED
| GAME_ENDED
| TICK (prices : option (gmap string float)) (remainingSec : option float)
| PORTFOLIO (p : Portfolio.portfolio)
| LEADERBOARD (rows : option (list Leaderboard.entry))
| ORDER_ACCEPTED (side asset : string) (qty price : float)
| ORDER_REJECT (reason : string)
| OTHER (type : string).

(** The module variables of [ws.js], the frames sent so far (oldest
    first), the document, and the state of [market.js] and [chart.js]. *)
Record client : Type := Client {
  ws : option readyState;
  userId : option string;
  lobbyId : option string;
  isHost : bool;
  sent : list outbound;
  document : dom;
  market : Market.state;
  charts : Chart.state
}.

Definition init (d : dom) : client :=
  {| ws := None; userId := None; lobbyId := None; isHost := false; sent := [];
     document := d; market := Market.init; charts := Chart.init |}.

Definition set_userId (u : option string) (c : client) : client :=
  {| ws := ws c; userId := u; lobbyId := lobbyId c; isHost := isHost c;
     sent := sent c; document := document c; market := market c;
     charts := charts c |}.

Definition set_lobbyId (l : option string) (c : client) : client :=
  {| ws := ws c; userId := userId c; lobbyId := l; isHost := isHost c;
     sent := sent c; document := document c; market := market c;
     charts := charts c |}.

Definition set_isHost (b : bool) (c : client) : client :=
  {| ws := ws c; userId := userId c; lobbyId := lobbyId c; isHost := b;
     sent := sent c; document := document c; market := market c;
     charts := charts c |}.

Definition set_document (d : dom) (c : client) : client :=
  {| ws := ws c; userId := userId c; lobbyId := lobbyId c; isHost := isHost c;
     sent := sent c; document := d; market := market c; charts := charts c |}.

Definition set_market (m : Market.state) (c : client) : client :=
  {| ws := ws c; userId := userId c; lobbyId := lobbyId c; isHost := isHost c;
     sent := sent c; document := document c; market := m; charts := charts c |}.

Definition set_charts (s : Chart.state) (c : client) : client :=
  {| ws := ws c; userId := userId c; lobbyId := lobbyId c; isHost := isHost c;
     sent := sent c; document := document c; market := market c; charts := s |}.

(** [ws.send(JSON.stringify(frame))] on an open socket *)
Definition send (f : outbound) (c : client) : client :=
  {| ws := ws c; userId := userId c; lobbyId := lobbyId c; isHost := isHost c;
     sent := sent c ++ [f]; document := document c; market := market c;
     charts := charts c |}.

Definition log (time : string) (m : html) (c : client) : client :=
  set_document (Ui.log time m (document c)) c.

(** [byId(id).field = v] *)
Definition assign_in (id : string) (f : element → element) (c : client)
    : completion client :=
  match assign id f (document c) with
  | Normal d => Normal (set_document d c)
  | Thrown d => Thrown (set_document d c)
  end.

Definition ensureConnected (c : client) : bool :=
  match ws c with
  | Some OPEN => true
  | _ => false
  end.

(** The order built by the BUY and SELL buttons of [initMarket]:
    [qty] is [parseInt(qtyI.value, 10) || 0], an integer. *)
Record order : Type := Order { asset : string; qty : Z; side : string }.

Definition handleOrder (time : string) (o : order) (c : client) : client :=
  if negb (ensureConnected c) then log time [Lit "Not connected."] c
  else if (qty o =? 0)%Z || (qty o <=? 0)%Z then
    log time [Lit "Enter a positive quantity."] c
  else send (ORDER (asset o) (side o) (qty o)) c.

(** [s || ""] on a string *)
Definition or_empty (s : string) : string :=
  if String.eqb s "" then "" else s.

Definition createLobby (time : string) (c : client) : completion client :=
  if negb (ensureConnected c) then
    Normal (log time [Lit "Not connected (cannot create lobby)."] c)
  else
    match Ui.byId "name" (document c) with
    | None => Thrown c
    | Some el =>
        let name := or_empty (value el) in
        Normal (send (CREATE_LOBBY name
                        {| startingCapital := startingCapital DEFAULTS;
                           tickSeconds := tickSeconds DEFAULTS;
                           durationSec := durationSec DEFAULTS |}) c)
    end.

Definition startGame (time : string) (c : client) : client :=
  if negb (ensureConnected c) then
    log time [Lit "Not connected (cannot start game)."] c
  else if negb (isHost c) then
    log time [Lit "Only the host can start the game."] c
  else send START_GAME c.

(** [ws.onmessage] on a parsed frame; [time] is the clock reading used by
    [log] and by [pushTickToHistory]. Writes to the console are left out. *)
Definition onmessage (time : string) (msg : inbound) (c : client)
    : completion client :=
  match msg with
  | HELLO u =>
      assign_in "userIdBox" (set_textContent [Lit "userId: "; Lit u])
        (set_userId (Some u) c)
  | INVITE_CODE l =>
      assign_in "inviteBox" (set_textContent [Lit "Invite code: "; Lit l])
        (set_lobbyId (Some l) c)
  | LOBBY_STATE l status hostId rules players =>
      let c := set_document (Ui.showLobbyCard true (document c)) c in
      let c := set_lobbyId (Some l) c in
      assign_in "lobbyIdTxt" (set_textContent [Lit l]) c ;;;
      assign_in "lobbyStatus" (set_textContent [Lit status]) ;;;
      assign_in "hostIdTxt" (set_textContent [Lit hostId]) ;;;
      assign_in "inviteBox" (set_textContent [Lit l]) ;;;
      assign_in "ruleCap" (set_textContent [Num (startingCapital rules)]) ;;;
      assign_in "ruleTick" (set_textContent [Num (tickSeconds rules)]) ;;;
      assign_in "ruleDur" (set_textContent [Num (durationSec rules)]) ;;;
      (λ c,
         let c := set_document (Ui.renderPlayers players (document c)) c in
         let c := set_isHost (bool_decide (userId c = Some hostId)) c in
         assign_in "btnStart"
           (set_disabled (negb (isHost c && String.eqb status "LOBBY"))) c)
  | GAME_STARTED =>
      let c := set_document (Ui.showGameArea true (document c)) c in
      let c := set_document
                 (alter (set_textContent [Lit "RUNNING"]) "lobbyStatus" (document c)) c in
      let c := set_charts (Chart.initChart (document c) (charts c)) c in
      let c := set_document (Market.initMarket (document c)) c in
      Normal c
  | GAME_ENDED =>
      assign_in "lobbyStatus" (set_textContent [Lit "ENDED"]) c ;;;
      (λ c, Normal (log time [Lit "Game ended."] c))
  | TICK prices remainingSec =>
      let md := Market.updatePrices prices (market c, document c) in
      let c := set_document md.2 (set_market md.1 c) in
      assign_in "timeLeft"
        (set_textContent [match remainingSec with
                          | Some r => Num r
                          | None => Lit "-"
                          end]) c ;;;
      (λ c,
         match Chart.pushTickToHistory time prices (charts c) with
         | Normal s => Normal (set_charts s c)
         | Thrown s => Thrown (set_charts s c)
         end)
  | PORTFOLIO p =>
      Normal (set_document (Portfolio.renderPortfolio (Some p) (document c)) c)
  | LEADERBOARD rows =>
      Normal (set_document (Leaderboard.renderLeaderboard rows (document c)) c)
  | ORDER_ACCEPTED side asset qty price =>
      Normal (log time [Lit "<span class='log-entry success'>✓ ORDER ACCEPTED: ";
                        Lit side; Lit " "; Lit asset; Lit " x"; Num qty;
                        Lit " @ "; Num price; Lit "</span>"] c)
  | ORDER_REJECT reason =>
      Normal (log time [Lit "<span class='log-entry error'>✗ ORDER REJECTED: ";
                        Lit reason; Lit "</span>"] c)
  | OTHER _ => Normal c
  end.

(** The messages are handled one at a time, in arrival order; a handler
    that raises ends that message only. Each message comes with the clock
    reading of its arrival. *)
Definition run (msgs : list (string * inbound)) (c : client) : client :=
  foldl (λ c tm, state_of (onmessage tm.1 tm.2 c)) c msgs.

(** The three screens. *)
Definition setupVisible (c : client) : bool := Ui.visible "setupScreen" (document c).
Definition lobbyVisible (c : client) : bool := Ui.visible "lobbyCard" (document c).
Definition tradingVisible (c : client) : bool := Ui.visible "gameArea" (document c).

End Ws.

(** ** leaderboard.js: the modal *)

Module Modal.

Definition showLeaderboard (d : dom) : dom :=
  alter (remove_class "hidden") "leaderboardModal" d.

Definition hideLeaderboard (d : dom) : dom :=
  alter (add_class "hidden") "leaderboardModal" d.

(** [classList.toggle("hidden")], without a forced state *)
Definition toggleLeaderboard (d : dom) : dom :=
  alter (λ modal, toggle_class "hidden" (negb (has_class "hidden" modal)) modal)
        "leaderboardModal" d.

End Modal.

(** ** ws.js: joining a lobby *)

Module Lobby.
Import Ws.

(** [joinLobby]. [toUpperCase] is [String.prototype.toUpperCase]; the
    second component lists the messages passed to [alert]. *)
Definition joinLobby (toUpperCase : string → string) (time : string) (c : client)
    : completion client * list string :=
  if negb (ensureConnected c) then
    (Normal (log time [Lit "Not connected (cannot join lobby)."] c), [])
  else
    match Ui.byId "name" (document c) with
    | None => (Thrown c, [])
    | Some nameInput =>
        let name := or_empty (value nameInput) in
        match Ui.byId "joinCode" (document c) with
        | None => (Thrown c, [])
        | Some joinCode =>
            let code := toUpperCase (or_empty (value joinCode)) in
            if String.eqb code "" then (Normal c, ["Enter a lobby code."])
            else (Normal (send (JOIN_LOBBY code name) c), [])
        end
    end.

End Lobby.

(** ** ws.js: the socket events *)

Module Socket.

(** The events of the socket that [connectWS] listens to, besides
    [onmessage]. *)
Inductive event : Type := onopen | onclose | onerror.

Definition handle (time : string) (ev : event) (d : dom) : dom :=
  match ev with
  | onopen => Ui.log time [Lit "WebSocket connected"] (Ui.setWsStatus true d)
  | onclose => Ui.log time [Lit "WebSocket disconnected"] (Ui.setWsStatus false d)
  | onerror => Ui.log time [Lit "WebSocket error (see console)."] (Ui.setWsStatus false d)
  end.

End Socket.

(** ** ticker.js *)

Module Ticker.

(** Module state: the headlines, the index of the first one shown (a
    number, [None] when it is [NaN]) and the interval timers: the handles
    of the running ones and the handle kept in [tickerInterval]. A handle
    of [setInterval] is an integer greater than zero, hence truthy. *)
Record state : Type := State {
  NEWS_HEADLINES : list string;
  currentIndex : option nat;
  timers : list positive;
  tickerInterval : option positive
}.

Definition init : state :=
  {| NEWS_HEADLINES :=
       ["BREAKING: Oil prices surge 3.2% on OPEC production cuts";
        "GOLD reaches new 6-month high amid inflation concerns";
        "ELECTRONICS sector rallies on strong Q4 earnings";
        "RICE futures decline as harvest season approaches peak";
        "PLUMBER stocks steady despite industry headwinds";
        "Central bank signals potential rate adjustment next quarter";
        "Asian markets open higher following overnight gains";
        "Commodities trading volume hits record levels";
        "Tech sector shows resilience amid volatility";
        "Energy stocks outperform broader market indices";
        "Agricultural commodities see mixed performance";
        "Currency markets react to latest economic data";
        "Industrial metals show strength in morning trading";
        "Precious metals gain as safe-haven demand increases";
        "Market analysts predict continued volatility ahead";
        "Trading volumes exceed daily averages by 25%";
        "Futures market shows strong institutional interest";
        "Emerging markets attract renewed investor attention";
        "Sector rotation continues as traders rebalance portfolios";
        "Algorithmic trading accounts for 60% of daily volume"];
     currentIndex := Some 0;
     timers := [];
     tickerInterval := None |}.

(** [(a + i) % n] on an index: [NaN] when [a] is [NaN] or [n] is [0]. *)
Definition index_mod (a : option nat) (i n : nat) : option nat :=
  match a with
  | Some a => if bool_decide (n = 0) then None else Some ((a + i) `mod` n)
  | None => None
  end.

(** [NEWS_HEADLINES[idx]] inside a template literal *)
Definition headline_at (l : list string) (idx : option nat) : string :=
  default "undefined" (idx ≫= (l !!.)).

Definition shown (s : state) : list string :=
  (λ i, headline_at (NEWS_HEADLINES s)
          (index_mod (currentIndex s) i (length (NEWS_HEADLINES s))))
    <$> [0; 1; 2; 3; 4].

Definition tickerHTML (headlines : list string) : html :=
  concat ((λ headline, [Lit "<span class='ticker-item'>"; Lit headline; Lit "</span>"])
            <$> headlines).

Definition updateTickerContent (sd : state * dom) : state * dom :=
  match Ui.byId "tickerText" sd.2 with
  | None => sd
  | Some tickerElement =>
      let s := sd.1 in
      ({| NEWS_HEADLINES := NEWS_HEADLINES s;
          currentIndex := index_mod (currentIndex s) 1 (length (NEWS_HEADLINES s));
          timers := timers s;
          tickerInterval := tickerInterval s |},
       <["tickerText" := set_textContent (tickerHTML (shown s)) tickerElement]> sd.2)
  end.

(** [id] is the handle that [setInterval] returns. *)
Definition initTicker (id : positive) (sd : state * dom) : state * dom :=
  match Ui.byId "tickerText" sd.2 with
  | None => sd
  | Some tickerElement =>
      let sd := updateTickerContent sd in
      ({| NEWS_HEADLINES := NEWS_HEADLINES sd.1;
          currentIndex := currentIndex sd.1;
          timers := timers sd.1 ++ [id];
          tickerInterval := Some id |}, sd.2)
  end.

Definition addTickerHeadline (headline : string) (sd : state * dom) : state * dom :=
  let l := ("ALERT: " +:+ headline) :: NEWS_HEADLINES sd.1 in
  let l := if bool_decide (30 < length l) then removelast l else l in
  updateTickerContent
    ({| NEWS_HEADLINES := l; currentIndex := currentIndex sd.1;
        timers := timers sd.1; tickerInterval := tickerInterval sd.1 |}, sd.2).

Definition stopTicker (s : state) : state :=
  match tickerInterval s with
  | None => s
  | Some id =>
      {| NEWS_HEADLINES := NEWS_HEADLINES s; currentIndex := currentIndex s;
         timers := filter (λ t, t ≠ id) (timers s); tickerInterval := None |}
  end.

End Ticker.

(** * Vocabulary of the statements *)

(** ** Pages and snapshots used as examples *)

Module Fixture.

Section pages.
Import Constants Ws.

Definition hiddenScreen : element := add_class "hidden" blank.

(** A page with the elements that the scripts look up; only the setup
    screen is shown. *)
Definition page : dom :=
  list_to_map
    [("setupScreen", blank); ("lobbyCard", hiddenScreen); ("gameArea", hiddenScreen);
     ("userIdBox", blank); ("inviteBox", blank); ("lobbyIdTxt", blank);
     ("lobbyStatus", blank); ("hostIdTxt", blank); ("ruleCap", blank);
     ("ruleTick", blank); ("ruleDur", blank); ("playersTbody", blank);
     ("btnStart", blank); ("timeLeft", blank); ("log", blank); ("name", blank);
     ("priceChart", blank); ("miniChart1", blank); ("rows", blank);
     ("market_rows", blank); ("pos_rows", blank); ("trades_rows", blank);
     ("lb_rows", blank)].

Definition asUser (u : string) : client := set_userId (Some u) (init page).

(** A page that holds the log panel and the name input, with an open
    socket. *)
Definition openClient : client :=
  {| ws := Some OPEN; userId := Some "U1"; lobbyId := None; isHost := false;
     sent := [];
     document := <["log" := blank]> (<["name" := set_textContent [] blank]> ∅);
     market := Market.init; charts := Chart.init |}.

(** The document once the game has started: the market table is built. *)
Definition tradingPage : dom :=
  document (run [("09:00:00", GAME_STARTED)] (init page)).

End pages.

Section ticks.
Import Chart.

Definition firstTick : gmap string float := {["OIL" := 100%float]}.
Definition secondTick : gmap string float := {["OIL" := 101%float]}.

(** Twenty-one ticks that price OIL at 1, 2, ..., 21. *)
Definition twentyOneTicks : list (gmap string float) :=
  (λ p, {["OIL" := p]})
    <$> [1; 2; 3; 4; 5; 6; 7; 8; 9; 10; 11; 12; 13; 14; 15; 16; 17; 18; 19; 20;
         21]%float.

(** A chart on OIL after a first tick at 100. *)
Definition oneTick : state :=
  state_of (pushTickToHistory "09:00:00" (Some {["OIL" := 100%float]})
              (initChart page init)).

End ticks.

Section snapshots.
Import Portfolio.

(** The [k]-th trade of a session, closed at second [k]. *)
Definition tradeAt (k : float) : trade :=
  {| ts := k; asset := "OIL"; side_open := "BUY"; qty := 1;
     realized_pnl := (k - 4)%float |}.

Definition sevenTrades : portfolio :=
  {| cash := 10000; equity := 10000; uPnL := 0; realizedPnL := 0;
     positions := None;
     trades := Some [tradeAt 1; tradeAt 2; tradeAt 3; tradeAt 4; tradeAt 5;
                     tradeAt 6; tradeAt 7] |}.


End snapshots.

End Fixture.

(** ** The session and the view models *)

Module Session.

(** The elements that the [LOBBY_STATE] handler writes without a guard. *)
Definition lobbyElements : list string :=
  ["lobbyIdTxt"; "lobbyStatus"; "hostIdTxt"; "inviteBox"; "ruleCap"; "ruleTick";
   "ruleDur"; "btnStart"].

Definition screens : list string := ["setupScreen"; "lobbyCard"; "gameArea"].

(** A class follows the sign of a number. *)
Definition by_sign {A} (v : float) (cls positive negative neutral : A) : Prop :=
  (Js.gt v 0 = true → cls = positive)
  ∧ (Js.lt v 0 = true → cls = negative)
  ∧ (Js.eq v 0 = true → cls = neutral).

End Session.

(** ** States of [chart.js] *)

Module ChartTrace.
Import Constants Chart.

(** Every state that the three entry points of [chart.js] can produce. *)
Inductive reachable : state → Prop :=
| reach_init : reachable init
| reach_initChart d s : reachable s → reachable (initChart d s)
| reach_select newAsset s :
    reachable s → reachable (state_of (updateChartAsset newAsset s))
| reach_tick ts prices s :
    reachable s → reachable (state_of (pushTickToHistory ts prices s)).

(** The names that [HISTORY[name]] finds on [Object.prototype] when
    [HISTORY] has no series of that name. *)
Definition prototypeNames : list string :=
  ["constructor"; "__proto__"; "__defineGetter__"; "__defineSetter__";
   "__lookupGetter__"; "__lookupSetter__"; "hasOwnProperty"; "isPrototypeOf";
   "propertyIsEnumerable"; "toLocaleString"; "toString"; "valueOf"].

(** Labels and series advance together and stay within [MAX_POINTS]. *)
Definition lockstep (s : state) : Prop :=
  length (LABELS s) ≤ MAX_POINTS
  ∧ (∀ asset, asset ∈ ASSETS ↔ is_Some (HISTORY s !! asset))
  ∧ ∀ asset arr, HISTORY s !! asset = Some arr → length arr = length (LABELS s).

End ChartTrace.

(** ** States of [market.js] *)

Module MarketTrace.
Import Constants Market.

(** What [updatePrices] reads and writes for one asset: its entries in
    [previousPrices] and [priceHistory] and its five cells. *)
Record view : Type := View {
  v_prev : option float;
  v_hist : option (list float);
  v_p : option element;
  v_mp : option element;
  v_mchg : option element;
  v_mchgp : option element;
  v_row : option element
}.

Definition view_of (asset : string) (s : state * dom) : view :=
  {| v_prev := previousPrices s.1 !! asset;
     v_hist := priceHistory s.1 !! asset;
     v_p := s.2 !! ("p_" +:+ asset);
     v_mp := s.2 !! ("mp_" +:+ asset);
     v_mchg := s.2 !! ("mchg_" +:+ asset);
     v_mchgp := s.2 !! ("mchgp_" +:+ asset);
     v_row := s.2 !! ("market_row_" +:+ asset) |}.

(** The effect of one tick on the view of an asset. *)
Definition step_view (newPrice : option float) (v : view) : view :=
  match newPrice with
  | None => v
  | Some price =>
      {| v_prev := Some price;
         v_hist := Some (pushHistory price (default [] (v_hist v)));
         v_p := set_textContent [Fixed2 price] <$> v_p v;
         v_mp := set_textContent [Fixed2 price] <$> v_mp v;
         v_mchg :=
           match v_mp v, v_prev v with
           | None, _ => v_mchg v
           | Some _, None => set_textContent [Lit "-"] <$> v_mchg v
           | Some _, Some prev =>
               let change := (price - prev)%float in
               (λ c, set_classList (changeClass change)
                       (set_textContent (signed change) c)) <$> v_mchg v
           end;
         v_mchgp :=
           match v_mp v, v_prev v with
           | None, _ => v_mchgp v
           | Some _, None => set_textContent [Lit "-"] <$> v_mchgp v
           | Some _, Some prev =>
               let changePct := ((price - prev) / prev * 100)%float in
               (λ c, set_classList (changeClass changePct)
                       (set_textContent (signed changePct ++ [Lit "%"]) c)) <$> v_mchgp v
           end;
         v_row :=
           match v_mp v, v_prev v with
           | Some _, Some prev => flash (price - prev)%float <$> v_row v
           | _, _ => v_row v
           end |}
  end.

(** The prices that a sequence of ticks carried for an asset, oldest first. *)
Definition carried (asset : string) (ticks : list (gmap string float)) : list float :=
  omap (λ priceMap, priceMap !! asset) ticks.

(** [reach ticks m]: the module state [m] results from the price maps
    [ticks], applied in order from the state at load time, whatever the
    document was at each tick. *)
Inductive reach : list (gmap string float) → state → Prop :=
| reach_init : reach [] init
| reach_tick ticks m priceMap d :
    reach ticks m →
    reach (ticks ++ [priceMap]) (updatePrices (Some priceMap) (m, d)).1.

(** The price maps [ticks] applied in order, as [ws.onmessage] does for the
    [TICK] frames it receives. *)
Definition applyTicks (ticks : list (gmap string float)) (s : state * dom)
    : state * dom :=
  foldl (λ s priceMap, updatePrices (Some priceMap) s) s ticks.

End MarketTrace.

(** ** Panels *)

Module Panels.

(** The entry that [log] builds for a message logged at [time]. *)
Definition logEntry (tm : string * html) : child :=
  Div "log-entry" (Lit "[" :: Lit tm.1 :: Lit "] " :: tm.2).

(** Messages logged one after the other. *)
Definition logAll (msgs : list (string * html)) (d : dom) : dom :=
  foldl (λ d tm, Ui.log tm.1 tm.2 d) d msgs.

(** Socket events handled one after the other, each at its clock reading. *)
Definition handleAll (events : list (string * Socket.event)) (d : dom) : dom :=
  foldl (λ d te, Socket.handle te.1 te.2 d) d events.

(** What [renderPortfolio] writes in a KPI element. *)
Definition paint (p : Portfolio.portfolio) (id : string) (e : element) : element :=
  let totalPnL := (Portfolio.uPnL p + Portfolio.realizedPnL p)%float in
  if decide (id = "k_cash") then set_textContent [Fixed2 (Portfolio.cash p)] e
  else if decide (id = "k_equity") then set_textContent [Fixed2 (Portfolio.equity p)] e
  else if decide (id = "k_upnl") then
    set_classList ["kpi-value"; "pnl-value"; Portfolio.getPnLClass (Portfolio.uPnL p)]
      (set_textContent (Portfolio.formatPnL (Portfolio.uPnL p)) e)
  else if decide (id = "k_rpnl") then
    set_classList ["kpi-value"; "pnl-value"; Portfolio.getPnLClass (Portfolio.realizedPnL p)]
      (set_textContent (Portfolio.formatPnL (Portfolio.realizedPnL p)) e)
  else if decide (id = "k_cash_top") then set_textContent [Fixed2 (Portfolio.cash p)] e
  else if decide (id = "k_equity_top") then set_textContent [Fixed2 (Portfolio.equity p)] e
  else if decide (id = "k_pnl_top") then
    set_classList ["pnl-value"; if Js.ge totalPnL 0 then "positive" else "negative"]
      (set_textContent (Portfolio.formatPnL totalPnL) e)
  else e.

(** What [renderPortfolio] writes in an element of a page that has, or has
    not, a positions table. *)
Definition painted (p : Portfolio.portfolio) (hasPositions : bool) (id : string)
    (e : element) : element :=
  if decide (id = "pos_rows") then
    set_children (Portfolio.positionRow <$> default [] (Portfolio.positions p))
      (clear_innerHTML e)
  else if decide (id = "trades_rows") then
    if hasPositions then
      set_children (Portfolio.tradeRow <$> Portfolio.shownTrades (Portfolio.trades p))
        (clear_innerHTML e)
    else e
  else paint p id e.

End Panels.

(** ** Frames and the elements they write *)

Module Handlers.
Import Constants Ws.

(** The cells of an asset that a tick writes. *)
Definition marketCells (asset : string) : list string :=
  ["p_" +:+ asset; "mp_" +:+ asset; "mchg_" +:+ asset; "mchgp_" +:+ asset;
   "market_row_" +:+ asset].

(** The elements of an asset that [initMarket] creates. *)
Definition tableCells (asset : string) : list string :=
  ["p_" +:+ asset; "q_" +:+ asset; "btn_buy_" +:+ asset; "btn_sell_" +:+ asset;
   "market_row_" +:+ asset; "mp_" +:+ asset; "mchg_" +:+ asset; "mchgp_" +:+ asset;
   "spark_" +:+ asset].

(** The elements that the handler of a frame may write. *)
Definition writes (msg : inbound) : list string :=
  match msg with
  | HELLO _ => ["userIdBox"]
  | INVITE_CODE _ => ["inviteBox"]
  | LOBBY_STATE _ _ _ _ _ =>
      ["lobbyCard"; "setupScreen"; "lobbyIdTxt"; "lobbyStatus"; "hostIdTxt";
       "inviteBox"; "ruleCap"; "ruleTick"; "ruleDur"; "playersTbody"; "btnStart"]
  | GAME_STARTED =>
      ["gameArea"; "setupScreen"; "lobbyCard"; "lobbyStatus"; "rows"; "market_rows"]
      ++ concat (tableCells <$> ASSETS)
  | GAME_ENDED => ["lobbyStatus"; "log"]
  | TICK _ _ => "timeLeft" :: concat (marketCells <$> ASSETS)
  | PORTFOLIO _ =>
      ["k_cash"; "k_equity"; "k_upnl"; "k_rpnl"; "k_cash_top"; "k_equity_top";
       "k_pnl_top"; "pos_rows"; "trades_rows"]
  | LEADERBOARD _ => ["lb_rows"]
  | ORDER_ACCEPTED _ _ _ _ => ["log"]
  | ORDER_REJECT _ => ["log"]
  | OTHER _ => []
  end.

(** The strings of a frame that its handler writes into the [innerHTML]
    of a row or of a log entry. *)
Definition markupStrings (msg : inbound) : list string :=
  match msg with
  | LOBBY_STATE _ _ _ _ players =>
      concat ((λ p, [Ui.name p; Ui.userId p]) <$> default [] players)
  | PORTFOLIO p =>
      (Portfolio.pos_asset <$> default [] (Portfolio.positions p))
      ++ concat ((λ t, [Portfolio.asset t; Portfolio.side_open t])
                   <$> Portfolio.shownTrades (Portfolio.trades p))
  | LEADERBOARD rows => Leaderboard.name <$> default [] rows
  | ORDER_ACCEPTED side asset _ _ => [side; asset]
  | ORDER_REJECT reason => [reason]
  | _ => []
  end.

(** A frame whose strings bring no markup into the page: the elements of
    the page are then those of the document of the model. *)
Definition plainFrame (msg : inbound) : Prop :=
  Forall (λ s, plain s = true) (markupStrings msg).

(** The elements that the [LOBBY_STATE] handler writes before it computes
    [isHost]. *)
Definition lobbyTexts : list string :=
  ["lobbyIdTxt"; "lobbyStatus"; "hostIdTxt"; "inviteBox"; "ruleCap"; "ruleTick";
   "ruleDur"].

End Handlers.

(** ** States of [ticker.js] *)

Module TickerTrace.
Import Ticker.

(** Every state that the entry points of [ticker.js] can produce, whatever
    the document is at each call. *)
Inductive reachable : state → Prop :=
| reach_load : reachable init
| reach_initTicker id s d : reachable s → reachable (initTicker id (s, d)).1
| reach_rotate s d : reachable s → reachable (updateTickerContent (s, d)).1
| reach_add headline s d : reachable s → reachable (addTickerHeadline headline (s, d)).1
| reach_stop s : reachable s → reachable (stopTicker s).

(** The list keeps between 20 and 30 headlines and [currentIndex] is an
    index into it. *)
Definition well_formed (s : state) : Prop :=
  20 ≤ length (NEWS_HEADLINES s) ≤ 30
  ∧ ∃ i, currentIndex s = Some i ∧ i < length (NEWS_HEADLINES s).

(** Headlines added one after the other. *)
Definition addAll (headlines : list string) (sd : state * dom) : state * dom :=
  foldl (λ sd headline, addTickerHeadline headline sd) sd headlines.

End TickerTrace.

(** * Properties *)

(** ** Comparisons of doubles *)

Module JsFacts.

Lemma SFcompare_swap (a b : spec_float) :
  SFcompare b a = CompOpp <$> SFcompare a b.
Proof.
  destruct a as [sa|sa| |sa ma ea], b as [sb|sb| |sb mb eb]; simpl;
    try reflexivity; try (destruct sa; reflexivity);
    try (destruct sb; reflexivity);
    try (destruct sa, sb; reflexivity).
  destruct sa, sb; simpl; try reflexivity;
    rewrite (Z.compare_antisym eb ea);
    destruct (eb ?= ea)%Z; simpl; try reflexivity;
    rewrite Pos.compare_cont_antisym; simpl;
    try rewrite CompOpp_involutive; reflexivity.
Qed.

Lemma gt_compare (a b : float) :
  Js.gt a b = true ↔ SFcompare (Prim2SF a) (Prim2SF b) = Some Gt.
Proof.
  unfold Js.gt. rewrite FloatAxioms.ltb_spec. unfold SFltb.
  rewrite (SFcompare_swap (Prim2SF a) (Prim2SF b)).
  destruct (SFcompare (Prim2SF a) (Prim2SF b)) as [[]|]; simpl; split; congruence.
Qed.

Lemma lt_compare (a b : float) :
  Js.lt a b = true ↔ SFcompare (Prim2SF a) (Prim2SF b) = Some Lt.
Proof.
  unfold Js.lt. rewrite FloatAxioms.ltb_spec. unfold SFltb.
  destruct (SFcompare (Prim2SF a) (Prim2SF b)) as [[]|]; simpl; split; congruence.
Qed.

Lemma eq_compare (a b : float) :
  Js.eq a b = true ↔ SFcompare (Prim2SF a) (Prim2SF b) = Some Eq.
Proof.
  unfold Js.eq. rewrite FloatAxioms.eqb_spec. unfold SFeqb.
  destruct (SFcompare (Prim2SF a) (Prim2SF b)) as [[]|]; simpl; split; congruence.
Qed.

(** A number is [NaN] exactly when it differs from itself. *)
Lemma nan_compare (a b : float) :
  Js.eq a a = true → Js.eq b b = true →
  is_Some (SFcompare (Prim2SF a) (Prim2SF b)).
Proof.
  rewrite !eq_compare.
  destruct (Prim2SF a) as [sa|sa| |sa ma ea], (Prim2SF b) as [sb|sb| |sb mb eb];
    simpl; intros; try discriminate; eauto.
Qed.

Lemma gt_irrefl (a : float) : Js.gt a a = false.
Proof.
  destruct (Js.gt a a) eqn:E; [|done].
  apply gt_compare in E. pose proof (SFcompare_swap (Prim2SF a) (Prim2SF a)) as H.
  rewrite E in H. discriminate.
Qed.

Lemma eq_not_gt (a b : float) : Js.eq a b = true → Js.gt a b = false.
Proof.
  intros H%eq_compare. destruct (Js.gt a b) eqn:E; [|done].
  apply gt_compare in E. congruence.
Qed.

Lemma eq_not_lt (a b : float) : Js.eq a b = true → Js.lt a b = false.
Proof.
  intros H%eq_compare. destruct (Js.lt a b) eqn:E; [|done].
  apply lt_compare in E. congruence.
Qed.

Lemma lt_not_gt (a b : float) : Js.lt a b = true → Js.gt a b = false.
Proof.
  intros H%lt_compare. destruct (Js.gt a b) eqn:E; [|done].
  apply gt_compare in E. congruence.
Qed.

(** Trichotomy away from [NaN]. *)
Lemma not_gt_lt_eq (a b : float) :
  Js.eq a a = true → Js.eq b b = true →
  Js.gt a b = false → Js.lt a b = false → Js.eq a b = true.
Proof.
  intros Ha Hb Hgt Hlt. destruct (nan_compare a b Ha Hb) as [[] Hc].
  - by apply eq_compare.
  - apply lt_compare in Hc. congruence.
  - apply gt_compare in Hc. congruence.
Qed.

End JsFacts.

(** ** Orders and lobby creation ([ws.js]) *)

Module WsFacts.
Import Constants Ws Fixture.

Lemma ensureConnected_open (c : client) :
  ensureConnected c = true ↔ ws c = Some OPEN.
Proof.
  unfold ensureConnected. destruct (ws c) as [[]|]; split; congruence.
Qed.

Lemma sent_log time m (c : client) : sent (log time m c) = sent c.
Proof. reflexivity. Qed.

Lemma sent_send f (c : client) : sent (send f c) = sent c ++ [f].
Proof. reflexivity. Qed.

Lemma or_empty_id (s : string) : or_empty s = s.
Proof.
  unfold or_empty. destruct (String.eqb s "") eqn:E; [|done].
  by apply String.eqb_eq in E.
Qed.

(** C4: an order with a non-positive quantity, or placed while the socket
    is not open, sends no frame and only writes a log line; an order with
    a positive quantity on an open socket sends exactly one [ORDER] frame
    with the submitted asset, side and quantity, and logs nothing. *)
Theorem handleOrder_dispatch time (o : order) (c : client) :
  ((qty o ≤ 0)%Z ∨ ws c ≠ Some OPEN →
     (∃ m, handleOrder time o c = log time [Lit m] c)
     ∧ sent (handleOrder time o c) = sent c)
  ∧ ((0 < qty o)%Z ∧ ws c = Some OPEN →
     handleOrder time o c = send (ORDER (asset o) (side o) (qty o)) c
     ∧ sent (handleOrder time o c) = sent c ++ [ORDER (asset o) (side o) (qty o)]
     ∧ document (handleOrder time o c) = document c).
Proof.
  unfold handleOrder. split.
  - intros H. destruct (ensureConnected c) eqn:Hc; simpl.
    + destruct H as [H|H]; [|by apply ensureConnected_open in Hc].
      destruct (qty o =? 0)%Z eqn:E0; simpl; [by eauto|].
      destruct (qty o <=? 0)%Z eqn:E1; [by eauto|]. apply Z.leb_gt in E1. lia.
    + eauto.
  - intros [Hq Hw]. apply ensureConnected_open in Hw. rewrite Hw. simpl.
    destruct (qty o =? 0)%Z eqn:E0; [apply Z.eqb_eq in E0; lia|].
    destruct (qty o <=? 0)%Z eqn:E1; [apply Z.leb_le in E1; lia|]. done.
Qed.

(** C4 on the quantities 0, -5 and 10. *)
Lemma handleOrder_dispatch_examples :
  sent (handleOrder "09:00:00" (Order "OIL" 0 "BUY") openClient) = []
  ∧ sent (handleOrder "09:00:00" (Order "OIL" (-5) "SELL") openClient) = []
  ∧ sent (handleOrder "09:00:00" (Order "GOLD" 10 "BUY")
            (set_document (document openClient) (init ∅))) = []
  ∧ sent (handleOrder "09:00:00" (Order "GOLD" 10 "BUY") openClient)
    = [ORDER "GOLD" "BUY" 10].
Proof.
  pose proof (handleOrder_dispatch "09:00:00" (Order "OIL" 0 "BUY") openClient) as [H0 _].
  pose proof (handleOrder_dispatch "09:00:00" (Order "OIL" (-5) "SELL") openClient) as [H5 _].
  pose proof (handleOrder_dispatch "09:00:00" (Order "GOLD" 10 "BUY")
                (set_document (document openClient) (init ∅))) as [Hn _].
  pose proof (handleOrder_dispatch "09:00:00" (Order "GOLD" 10 "BUY") openClient) as [_ H10].
  split; [apply H0; left; simpl; lia|].
  split; [apply H5; left; simpl; lia|].
  split; [apply Hn; right; simpl; discriminate|].
  apply H10. split; [simpl; lia|reflexivity].
Defined.

(** C9: on an open socket, the [CREATE_LOBBY] frame carries the name typed
    by the user and always the default rules: starting capital 10000, a
    tick every 2 seconds, 900 seconds of play. Nothing else is sent. *)
Theorem createLobby_default_rules time (c : client) (el : element) :
  ws c = Some OPEN →
  document c !! "name" = Some el →
  createLobby time c
    = Normal (send (CREATE_LOBBY (value el)
                      {| startingCapital := 10000; tickSeconds := 2;
                         durationSec := 900 |}) c)
  ∧ sent (state_of (createLobby time c))
    = sent c ++ [CREATE_LOBBY (value el) (Rules 10000 2 900)].
Proof.
  intros Hw Hel. apply ensureConnected_open in Hw.
  unfold createLobby, Ui.byId. rewrite Hw, Hel, or_empty_id. simpl.
  split; reflexivity.
Qed.

Lemma createLobby_default_rules_example :
  sent (state_of (createLobby "09:00:00" openClient))
  = [CREATE_LOBBY "" (Rules 10000 2 900)].
Proof.
  apply (createLobby_default_rules "09:00:00" openClient (set_textContent [] blank));
    reflexivity.
Defined.

End WsFacts.

(** ** The session: lobby snapshots and screens ([ws.js], [ui.js]) *)

Module SessionFacts.
Import Constants Ws Fixture Session.

Lemma assign_in_Some id f (c : client) :
  is_Some (document c !! id) →
  ∃ e, document c !! id = Some e
       ∧ assign_in id f c = Normal (set_document (<[id := f e]> (document c)) c).
Proof.
  intros [e He]. exists e. split; [done|].
  unfold assign_in, assign. by rewrite He.
Qed.

Lemma showLobbyCard_is_Some show (d : dom) id :
  is_Some (d !! id) → is_Some (Ui.showLobbyCard show d !! id).
Proof.
  intros H. unfold Ui.showLobbyCard, Ui.byId.
  destruct (d !! "lobbyCard"); [|done].
  destruct show; simpl; [apply lookup_alter_is_Some|];
    (apply lookup_insert_is_Some'; by right).
Qed.

Lemma renderPlayers_is_Some players (d : dom) id :
  is_Some (d !! id) → is_Some (Ui.renderPlayers players d !! id).
Proof. intros H. unfold Ui.renderPlayers. by apply lookup_alter_is_Some. Qed.

Local Ltac present :=
  simpl;
  repeat first
    [ assumption
    | apply lookup_insert_is_Some'; right
    | apply renderPlayers_is_Some
    | apply showLobbyCard_is_Some ].

Local Ltac assign_step :=
  lazymatch goal with
  | |- context [assign_in ?id ?f ?c] =>
      let e := fresh "e" in
      let He := fresh "He" in
      let Hs := fresh "Hs" in
      destruct (assign_in_Some id f c) as (e & He & Hs);
      [ present | rewrite Hs; clear Hs He; simpl and_then ]
  end.

(** C5: every lobby snapshot recomputes [isHost] as the equality of the
    local user id with the snapshot's host id, and the start button is
    enabled exactly when [isHost] holds and the status is "LOBBY". *)
Theorem lobby_state_isHost time l status hostId rules players (c : client) :
  (∀ id, id ∈ lobbyElements → is_Some (document c !! id)) →
  ∃ c', onmessage time (LOBBY_STATE l status hostId rules players) c = Normal c'
    ∧ userId c' = userId c
    ∧ isHost c' = bool_decide (userId c = Some hostId)
    ∧ disabled <$> document c' !! "btnStart"
      = Some (negb (isHost c' && bool_decide (status = "LOBBY"))).
Proof.
  intros Hpage.
  assert (is_Some (document c !! "lobbyIdTxt")) by (apply Hpage; set_solver).
  assert (is_Some (document c !! "lobbyStatus")) by (apply Hpage; set_solver).
  assert (is_Some (document c !! "hostIdTxt")) by (apply Hpage; set_solver).
  assert (is_Some (document c !! "inviteBox")) by (apply Hpage; set_solver).
  assert (is_Some (document c !! "ruleCap")) by (apply Hpage; set_solver).
  assert (is_Some (document c !! "ruleTick")) by (apply Hpage; set_solver).
  assert (is_Some (document c !! "ruleDur")) by (apply Hpage; set_solver).
  assert (is_Some (document c !! "btnStart")) by (apply Hpage; set_solver).
  unfold onmessage.
  do 7 assign_step. assign_step.
  eexists. split; [reflexivity|]. simpl.
  split; [reflexivity|]. split; [reflexivity|].
  rewrite lookup_insert_eq. simpl. do 3 f_equal.
  destruct (String.eqb_spec status "LOBBY");
    [by rewrite bool_decide_true | by rewrite bool_decide_false].
Qed.

Lemma page_lobbyElements u id :
  id ∈ lobbyElements → is_Some (document (asUser u) !! id).
Proof.
  intros Hid. unfold lobbyElements in Hid.
  repeat (apply elem_of_cons in Hid as [->|Hid]; [by eexists|]).
  by apply elem_of_nil in Hid.
Qed.

(** C5 on host "U1": user "U1" is the host and may start only while the
    status is "LOBBY"; user "U2" is not the host and may never start. *)
Lemma lobby_state_isHost_examples :
  (∃ c', onmessage "09:00:00" (LOBBY_STATE "L1" "LOBBY" "U1" DEFAULTS None) (asUser "U1")
         = Normal c'
         ∧ isHost c' = true ∧ disabled <$> document c' !! "btnStart" = Some false)
  ∧ (∃ c', onmessage "09:00:00" (LOBBY_STATE "L1" "RUNNING" "U1" DEFAULTS None) (asUser "U1")
           = Normal c'
           ∧ isHost c' = true ∧ disabled <$> document c' !! "btnStart" = Some true)
  ∧ (∃ c', onmessage "09:00:00" (LOBBY_STATE "L1" "LOBBY" "U1" DEFAULTS None) (asUser "U2")
           = Normal c'
           ∧ isHost c' = false ∧ disabled <$> document c' !! "btnStart" = Some true)
  ∧ (∃ c', onmessage "09:00:00" (LOBBY_STATE "L1" "ENDED" "U1" DEFAULTS None) (asUser "U2")
           = Normal c'
           ∧ isHost c' = false ∧ disabled <$> document c' !! "btnStart" = Some true).
Proof.
  repeat split.
  - destruct (lobby_state_isHost "09:00:00" "L1" "LOBBY" "U1" DEFAULTS None (asUser "U1")
                (page_lobbyElements "U1")) as (c' & Hrun & _ & Hhost & Hbtn).
    exists c'. rewrite Hbtn, Hhost. split; [exact Hrun|split; reflexivity].
  - destruct (lobby_state_isHost "09:00:00" "L1" "RUNNING" "U1" DEFAULTS None (asUser "U1")
                (page_lobbyElements "U1")) as (c' & Hrun & _ & Hhost & Hbtn).
    exists c'. rewrite Hbtn, Hhost. split; [exact Hrun|split; reflexivity].
  - destruct (lobby_state_isHost "09:00:00" "L1" "LOBBY" "U1" DEFAULTS None (asUser "U2")
                (page_lobbyElements "U2")) as (c' & Hrun & _ & Hhost & Hbtn).
    exists c'. rewrite Hbtn, Hhost. split; [exact Hrun|split; reflexivity].
  - destruct (lobby_state_isHost "09:00:00" "L1" "ENDED" "U1" DEFAULTS None (asUser "U2")
                (page_lobbyElements "U2")) as (c' & Hrun & _ & Hhost & Hbtn).
    exists c'. rewrite Hbtn, Hhost. split; [exact Hrun|split; reflexivity].
Defined.

End SessionFacts.

(** ** Screen visibility ([ui.js], [ws.js]) *)

Module ScreenFacts.
Import Constants Ws Fixture Session SessionFacts.

Lemma class_add_has tok (e : element) : has_class tok (add_class tok e) = true.
Proof.
  unfold has_class, add_class, class_add. simpl. apply bool_decide_eq_true.
  destruct (bool_decide (tok ∈ classList e)) eqn:E;
    [by apply bool_decide_eq_true in E | set_solver].
Qed.

Lemma class_remove_has tok (e : element) :
  has_class tok (toggle_class tok false e) = false.
Proof.
  unfold has_class, toggle_class, class_toggle, class_remove. simpl.
  apply bool_decide_eq_false. rewrite list_elem_of_filter. by intros [? _].
Qed.

Lemma state_of_and_then (P : client → Prop) (x : completion client) k :
  P (state_of x) → (∀ s, P s → P (state_of (k s))) → P (state_of (x ;;; k)).
Proof. destruct x; simpl; auto. Qed.

Lemma assign_in_frame id f (c : client) id' :
  id ≠ id' → document (state_of (assign_in id f c)) !! id' = document c !! id'.
Proof.
  intros Hne. unfold assign_in, assign.
  destruct (document c !! id); simpl; [by rewrite lookup_insert_ne|done].
Qed.

Lemma showLobbyCard_frame show (d : dom) id :
  id ≠ "lobbyCard" → id ≠ "setupScreen" → Ui.showLobbyCard show d !! id = d !! id.
Proof.
  intros H1 H2. unfold Ui.showLobbyCard, Ui.byId.
  destruct (d !! "lobbyCard"); [|done].
  destruct show; by rewrite ?lookup_alter_ne, lookup_insert_ne.
Qed.

Lemma renderPlayers_frame players (d : dom) id :
  id ≠ "playersTbody" → Ui.renderPlayers players d !! id = d !! id.
Proof. intros H. unfold Ui.renderPlayers. by rewrite lookup_alter_ne. Qed.

(** Follows a lookup through the steps of a handler that leave it alone. *)
Local Ltac frame_chain :=
  repeat (apply state_of_and_then; [|intros ? <-; simpl]);
  simpl;
  repeat first
    [ reflexivity
    | rewrite assign_in_frame by done
    | rewrite renderPlayers_frame by done
    | rewrite showLobbyCard_frame by done
    | rewrite lookup_insert_ne by done
    | rewrite lookup_alter_ne by done
    | progress simpl ].

(** A lobby snapshot never touches the trading screen. *)
Lemma lobby_state_keeps_gameArea time l status hostId rules players (c : client) :
  document (state_of (onmessage time (LOBBY_STATE l status hostId rules players) c))
    !! "gameArea"
  = document c !! "gameArea".
Proof.
  unfold onmessage. frame_chain.
Qed.

(** A lobby snapshot shows the lobby card, when the page has one, and
    hides the setup screen. *)
Lemma lobby_state_shows_lobby time l status hostId rules players (c : client) :
  is_Some (document c !! "lobbyCard") →
  let c' := state_of (onmessage time (LOBBY_STATE l status hostId rules players) c) in
  lobbyVisible c' = true ∧ setupVisible c' = false
  ∧ tradingVisible c' = tradingVisible c.
Proof.
  intros [el Hel] c'. split; [|split].
  - unfold lobbyVisible, Ui.visible, Ui.byId.
    assert (document c' !! "lobbyCard"
            = Some (toggle_class "hidden" false el)) as ->.
    { unfold c', onmessage. frame_chain.
      unfold Ui.showLobbyCard, Ui.byId. rewrite Hel. simpl.
      by rewrite lookup_alter_ne, lookup_insert_eq by done. }
    by rewrite class_remove_has.
  - unfold setupVisible, Ui.visible, Ui.byId.
    assert (document c' !! "setupScreen"
            = add_class "hidden" <$> document c !! "setupScreen") as ->.
    { unfold c', onmessage. frame_chain.
      unfold Ui.showLobbyCard, Ui.byId. rewrite Hel. simpl.
      by rewrite lookup_alter_eq, lookup_insert_ne by done. }
    destruct (document c !! "setupScreen"); simpl; [|done].
    by rewrite class_add_has.
  - unfold tradingVisible, Ui.visible, Ui.byId, c'.
    by rewrite lobby_state_keeps_gameArea.
Qed.

(** Building the market and order tables leaves the three screens alone. *)
Lemma initMarket_screens (d : dom) id :
  id ∈ screens → Market.initMarket d !! id = d !! id.
Proof.
  intros Hid. unfold screens in Hid.
  unfold Market.initMarket, Market.initMarketData, Ui.byId.
  destruct (d !! "rows") as [rows|]; [|done].
  cbn [foldl ASSETS].
  repeat (rewrite lookup_insert_ne by (cbv; discriminate)).
  destruct (d !! "market_rows") as [market_rows|]; cbn [foldl ASSETS];
    repeat (apply elem_of_cons in Hid as [->|Hid];
            [by repeat (rewrite lookup_insert_ne by (cbv; discriminate))|]);
    by apply elem_of_nil in Hid.
Qed.

(** After [GAME_STARTED] only the trading screen is shown, whatever was
    shown before. *)
Lemma game_started_only_trading time (c : client) :
  is_Some (document c !! "gameArea") →
  ∃ c', onmessage time GAME_STARTED c = Normal c'
    ∧ tradingVisible c' = true ∧ lobbyVisible c' = false ∧ setupVisible c' = false.
Proof.
  intros [el Hel]. eexists. split; [reflexivity|].
  unfold tradingVisible, lobbyVisible, setupVisible, Ui.visible, Ui.byId. simpl.
  rewrite !initMarket_screens by (unfold screens; set_solver).
  rewrite !lookup_alter_ne by done.
  unfold Ui.showGameArea, Ui.byId. rewrite Hel.
  rewrite !lookup_alter_ne by done. rewrite lookup_insert_eq.
  repeat first [ rewrite lookup_alter_eq
               | rewrite lookup_alter_ne by done
               | rewrite lookup_insert_ne by done ].
  split; [by rewrite class_remove_has|].
  split.
  - destruct (document c !! "lobbyCard"); simpl; [by rewrite class_add_has|done].
  - destruct (document c !! "setupScreen"); simpl; [by rewrite class_add_has|done].
Qed.

Lemma game_started_keeps_lobbyCard time (c : client) :
  is_Some (document c !! "lobbyCard") →
  is_Some (document (state_of (onmessage time GAME_STARTED c)) !! "lobbyCard").
Proof.
  intros Hcard. simpl.
  rewrite initMarket_screens by (unfold screens; set_solver).
  rewrite lookup_alter_ne by done.
  unfold Ui.showGameArea, Ui.byId. destruct (document c !! "gameArea"); [|done].
  apply lookup_alter_is_Some. rewrite lookup_alter_ne, lookup_insert_ne by done. done.
Qed.

(** C1, on the messages [GAME_STARTED] then [LOBBY_STATE]: after the start
    of the game only the trading screen is shown, but a lobby snapshot that
    follows shows the lobby card again and leaves the trading screen shown,
    so that two screens are visible at once and the lobby screen has come
    back. *)
Theorem lobby_state_after_game_started t1 t2 l status hostId rules players (c : client) :
  is_Some (document c !! "gameArea") →
  is_Some (document c !! "lobbyCard") →
  let started := run [(t1, GAME_STARTED)] c in
  let c' := run [(t1, GAME_STARTED);
                 (t2, LOBBY_STATE l status hostId rules players)] c in
  (setupVisible started, lobbyVisible started, tradingVisible started)
    = (false, false, true)
  ∧ (setupVisible c', lobbyVisible c', tradingVisible c') = (false, true, true).
Proof.
  intros Hgame Hcard started c'.
  destruct (game_started_only_trading t1 c Hgame) as (c1 & Hrun & Ht & Hl & Hs).
  assert (started = c1) as Hstarted
    by (unfold started, run; cbn [foldl fst snd]; by rewrite Hrun).
  pose proof (game_started_keeps_lobbyCard t1 c Hcard) as Hcard1.
  rewrite Hrun in Hcard1. cbn [state_of] in Hcard1.
  destruct (lobby_state_shows_lobby t2 l status hostId rules players c1 Hcard1)
    as (Hl' & Hs' & Ht').
  assert (c' = state_of (onmessage t2 (LOBBY_STATE l status hostId rules players) c1))
    as -> by (unfold c', run; cbn [foldl fst snd]; by rewrite Hrun).
  rewrite Hstarted, Ht, Hl, Hs. split; [done|].
  by rewrite Hl', Hs', Ht', Ht.
Qed.

(** C1 on the example page, with a snapshot of the running lobby. *)
Lemma lobby_state_after_game_started_on_page :
  let started := run [("09:00:00", GAME_STARTED)] (init page) in
  let c' := run [("09:00:00", GAME_STARTED);
                 ("09:00:02", LOBBY_STATE "L1" "RUNNING" "U1" DEFAULTS None)]
                (init page) in
  (setupVisible started, lobbyVisible started, tradingVisible started)
    = (false, false, true)
  ∧ (setupVisible c', lobbyVisible c', tradingVisible c') = (false, true, true).
Proof.
  apply (lobby_state_after_game_started "09:00:00" "09:00:02" "L1" "RUNNING" "U1"
           DEFAULTS None (init page)); by eexists.
Defined.

End ScreenFacts.

(** ** Trade history and leaderboard rows ([portfolio.js], [leaderboard.js]) *)

Module ViewFacts.
Import Fixture Session.

Lemma portfolio_getPnLClass_sign v :
  by_sign v (Portfolio.getPnLClass v) "pnl-positive" "pnl-negative" "pnl-neutral".
Proof.
  unfold by_sign, Portfolio.getPnLClass. repeat split.
  - by intros ->.
  - intros H. by rewrite (JsFacts.lt_not_gt _ _ H), H.
  - intros H. by rewrite (JsFacts.eq_not_gt _ _ H), (JsFacts.eq_not_lt _ _ H).
Qed.


Section trades.
Import Portfolio.

Lemma shown_length (l : list trade) :
  length (take 5 (reverse l)) = min (length l) 5.
Proof. rewrite length_take, length_reverse. lia. Qed.

Lemma shown_lookup (l : list trade) i :
  i < min (length l) 5 → take 5 (reverse l) !! i = l !! (length l - 1 - i).
Proof.
  intros Hi. rewrite lookup_take_lt by lia. rewrite reverse_lookup by lia.
  f_equal. lia.
Qed.

(** C6: the trade table shows the [min n 5] most recent of the [n]
    trades of the snapshot, the most recent first: row [i] is built from
    the trade at position [n - 1 - i] of the snapshot. When the asset and
    the side of that trade are plain strings, the row has five cells:
    time, asset, side, quantity and realized P&L, the last with its sign
    and with the class of that sign; otherwise the row is the text of
    the template filled with the same values, left to the HTML parser. *)
Theorem renderPortfolio_trades (p : portfolio) (d : dom) :
  is_Some (d !! "pos_rows") →
  is_Some (d !! "trades_rows") →
  let l := default [] (trades p) in
  ∃ rendered,
    children <$> renderPortfolio (Some p) d !! "trades_rows" = Some rendered
    ∧ length rendered = min (length l) 5
    ∧ ∀ i, i < min (length l) 5 →
        ∃ t pnlClass,
          l !! (length l - 1 - i) = Some t
          ∧ by_sign (realized_pnl t) pnlClass
              "pnl-positive" "pnl-negative" "pnl-neutral"
          ∧ (plain (asset t) = true → plain (side_open t) = true →
             rendered !! i
             = Some (Tr "" [Td "" [HhMm (ts t * 1000)];
                            Td "" [Lit (asset t)];
                            Td (if String.eqb (side_open t) "BUY"
                                then "pnl-positive" else "pnl-negative")
                               [Lit (side_open t)];
                            Td "" [Num (qty t)];
                            Td pnlClass
                               [Lit (if Js.ge (realized_pnl t) 0 then "+" else "");
                                Fixed2 (realized_pnl t)]]))
          ∧ (plain (asset t) = false ∨ plain (side_open t) = false →
             rendered !! i
             = Some (Markup ""
                       [Lit "<td>"; HhMm (ts t * 1000); Lit "</td><td><strong>";
                        Lit (asset t); Lit "</strong></td><td class='";
                        Lit (if String.eqb (side_open t) "BUY"
                             then "pnl-positive" else "pnl-negative");
                        Lit "'>"; Lit (side_open t); Lit "</td><td>"; Num (qty t);
                        Lit "</td><td class='"; Lit pnlClass; Lit "'>";
                        Lit (if Js.ge (realized_pnl t) 0 then "+" else "");
                        Fixed2 (realized_pnl t); Lit "</td>"])).
Proof.
  intros [posTb Hpos] [tradeTb Htr] l. exists (tradeRow <$> take 5 (reverse l)).
  split; [|split].
  - unfold renderPortfolio, Ui.byId.
    rewrite !lookup_alter_ne, Hpos by done.
    rewrite lookup_insert_ne, !lookup_alter_ne, Htr by done.
    by rewrite lookup_insert_eq.
  - rewrite length_fmap. apply shown_length.
  - intros i Hi.
    assert (is_Some (l !! (length l - 1 - i))) as [t Ht].
    { apply lookup_lt_is_Some. lia. }
    exists t, (getPnLClass (realized_pnl t)).
    split; [exact Ht|]. split; [apply portfolio_getPnLClass_sign|].
    rewrite list_lookup_fmap, shown_lookup, Ht by done. simpl.
    unfold tradeRow, formatPnL. split.
    + intros -> ->. reflexivity.
    + intros Hmarkup.
      assert (plain (asset t) && plain (side_open t) = false) as ->.
      { destruct Hmarkup as [-> | ->]; [done|apply andb_false_r]. }
      reflexivity.
Qed.

(** C6 on seven trades: the five most recent are shown, newest first, the
    trade closed at second 7 on top and the one closed at second 3 last. *)
Lemma renderPortfolio_trades_seven :
  ∃ rendered,
    children <$> renderPortfolio (Some sevenTrades) page !! "trades_rows"
      = Some rendered
    ∧ length rendered = 5
    ∧ rendered !! 0
      = Some (Tr "" [Td "" [HhMm (7 * 1000)]; Td "" [Lit "OIL"];
                     Td "pnl-positive" [Lit "BUY"]; Td "" [Num 1];
                     Td "pnl-positive" [Lit "+"; Fixed2 (7 - 4)]])
    ∧ rendered !! 4
      = Some (Tr "" [Td "" [HhMm (3 * 1000)]; Td "" [Lit "OIL"];
                     Td "pnl-positive" [Lit "BUY"]; Td "" [Num 1];
                     Td "pnl-negative" [Lit ""; Fixed2 (3 - 4)]]).
Proof.
  destruct (renderPortfolio_trades sevenTrades page)
    as (rendered & Hc & Hlen & Hrows); [by eexists..|].
  exists rendered. split; [exact Hc|]. split; [exact Hlen|].
  destruct (Hrows 0 ltac:(simpl; lia)) as (t0 & c0 & Ht0 & (Hpos0 & _ & _) & Hrow0 & _).
  destruct (Hrows 4 ltac:(simpl; lia)) as (t4 & c4 & Ht4 & (_ & Hneg4 & _) & Hrow4 & _).
  clear Hc Hlen Hrows.
  injection Ht0 as <-. injection Ht4 as <-.
  rewrite (Hpos0 eq_refl) in Hrow0. rewrite (Hneg4 eq_refl) in Hrow4.
  split; [exact (Hrow0 eq_refl eq_refl)|exact (Hrow4 eq_refl eq_refl)].
Defined.
End trades.

Section leaderboard.
Import Leaderboard.




End leaderboard.

End ViewFacts.

(** ** Chart history ([chart.js]) *)

Module ChartFacts.
Import Constants Chart Fixture ChartTrace.

Lemma push_shift_evict {A} (x : A) (arr : list A) :
  length arr ≤ MAX_POINTS →
  push_shift x arr
  = drop (if bool_decide (length arr < MAX_POINTS) then 0 else 1) (arr ++ [x]).
Proof.
  intros Hlen. unfold push_shift, MAX_POINTS in *. rewrite length_app. simpl.
  repeat case_bool_decide; try reflexivity; lia.
Qed.

Lemma push_shift_length {A} (x : A) (arr : list A) :
  length arr ≤ MAX_POINTS →
  length (push_shift x arr) = S (length arr) `min` MAX_POINTS.
Proof.
  intros Hlen. rewrite push_shift_evict by done.
  rewrite length_drop, length_app. unfold MAX_POINTS in *. simpl.
  case_bool_decide; lia.
Qed.

Lemma initChart_data d s :
  LABELS (initChart d s) = LABELS s ∧ HISTORY (initChart d s) = HISTORY s.
Proof.
  unfold initChart, initMiniChart, Ui.byId.
  destruct (d !! "priceChart"); [|done]. by destruct (d !! "miniChart1").
Qed.

Lemma updateChartAsset_data a s :
  LABELS (state_of (updateChartAsset a s)) = LABELS s
  ∧ HISTORY (state_of (updateChartAsset a s)) = HISTORY s.
Proof.
  unfold updateChartAsset. simpl. destruct (chart s); [|done].
  by destruct (get (HISTORY s) a).
Qed.

Lemma pushTick_data ts prices s :
  LABELS (state_of (pushTickToHistory ts (Some prices) s)) = push_shift ts (LABELS s)
  ∧ HISTORY (state_of (pushTickToHistory ts (Some prices) s))
    = map_imap (λ asset arr, Some (push_shift (prices !! asset) arr)) (HISTORY s).
Proof.
  unfold pushTickToHistory. simpl. destruct (chart s); [|done].
  destruct (get _ (chartAsset s)) as [[data|len]|]; [| |done];
    by case_bool_decide.
Qed.

Lemma init_lockstep : lockstep init.
Proof.
  split; [simpl; lia|]. split.
  - intros asset. unfold init, Constants.HISTORY, ASSETS. simpl.
    rewrite !lookup_insert_is_Some', lookup_empty, !elem_of_cons, elem_of_nil.
    split.
    + intros [->|[->|[->|[->|[->|[]]]]]]; auto 10.
    + intros [<-|[<-|[<-|[<-|[<-|[? [=]]]]]]]; auto 10.
  - intros asset arr. unfold init, Constants.HISTORY. simpl.
    rewrite !lookup_insert_Some, lookup_empty.
    intros [[_ <-]|[_ [[_ <-]|[_ [[_ <-]|[_ [[_ <-]|[_ [[_ <-]|[_ [=]]]]]]]]]]];
      reflexivity.
Qed.

Lemma pushTick_lockstep ts prices s :
  lockstep s → lockstep (state_of (pushTickToHistory ts prices s)).
Proof.
  intros (Hlen & Hkeys & Hsame). destruct prices as [prices|]; [|done].
  unfold lockstep. destruct (pushTick_data ts prices s) as [-> ->].
  split; [rewrite push_shift_length by done; lia|]. split.
  - intros asset. rewrite map_lookup_imap, Hkeys.
    destruct (HISTORY s !! asset); simpl; split; intros []; eauto; done.
  - intros asset arr. rewrite map_lookup_imap.
    destruct (HISTORY s !! asset) as [old|] eqn:Hold; simpl; [|done].
    intros [= <-]. pose proof (Hsame _ _ Hold) as Heq.
    rewrite !push_shift_length by lia. by rewrite Heq.
Qed.

Lemma reachable_lockstep s : reachable s → lockstep s.
Proof.
  induction 1 as [|d s _ IH|a s _ IH|ts prices s _ IH].
  - apply init_lockstep.
  - unfold lockstep. by destruct (initChart_data d s) as [-> ->].
  - unfold lockstep. by destruct (updateChartAsset_data a s) as [-> ->].
  - by apply pushTick_lockstep.
Qed.

(** C8: in every reachable state the label sequence and each series have
    the same length, at most 300; a tick appends its label to the labels
    and, to the series of every configured symbol, the price of the symbol
    or [null] when the tick has none, and drops the oldest entry of a
    sequence that was full. *)
Theorem pushTick_appends s :
  reachable s →
  lockstep s
  ∧ ∀ ts prices,
      let s' := state_of (pushTickToHistory ts (Some prices) s) in
      let evicted := if bool_decide (length (LABELS s) < 300) then 0 else 1 in
      lockstep s'
      ∧ LABELS s' = drop evicted (LABELS s ++ [ts])
      ∧ ∀ asset, asset ∈ ASSETS →
          ∃ arr, HISTORY s !! asset = Some arr
            ∧ HISTORY s' !! asset = Some (drop evicted (arr ++ [prices !! asset])).
Proof.
  intros Hs. pose proof (reachable_lockstep s Hs) as Hlock.
  split; [done|]. intros ts prices s' evicted.
  split; [by apply pushTick_lockstep|].
  destruct Hlock as (Hlen & Hkeys & Hsame).
  unfold s'. destruct (pushTick_data ts prices s) as [-> ->].
  split; [by apply push_shift_evict|].
  intros asset [arr Harr]%Hkeys. exists arr. split; [done|].
  rewrite map_lookup_imap, Harr. simpl. f_equal.
  pose proof (Hsame _ _ Harr) as Heq.
  rewrite push_shift_evict by lia. unfold evicted, MAX_POINTS. by rewrite Heq.
Qed.

(** C8 on the first tick of a session, which prices OIL only. *)
Lemma pushTick_appends_first :
  let s' := state_of (pushTickToHistory "09:00:00" (Some {["OIL" := 100%float]}) init) in
  LABELS s' = ["09:00:00"]
  ∧ HISTORY s' !! "OIL" = Some [Some 100%float]
  ∧ HISTORY s' !! "GOLD" = Some [None].
Proof.
  destruct (pushTick_appends init reach_init) as [_ H].
  destruct (H "09:00:00" {["OIL" := 100%float]}) as (_ & HL & HH).
  split; [rewrite HL; vm_compute; reflexivity|]. split.
  - destruct (HH "OIL") as (arr & Harr & ->); [unfold ASSETS; repeat constructor|].
    vm_compute in Harr. injection Harr as <-. vm_compute. reflexivity.
  - destruct (HH "GOLD") as (arr & Harr & ->); [unfold ASSETS; repeat constructor|].
    vm_compute in Harr. injection Harr as <-. vm_compute. reflexivity.
Defined.

(** C10: on a tick that leaves the selected series with two points or
    more, the line of an existing chart turns green or red, never stays
    at its initial colour, and it is red when the last two points are the
    same value or compare equal, because the test is a strict [>]. *)
Theorem pushTick_flat_is_red ts prices s c (data : list (option float)) :
  chart s = Some c →
  HISTORY (state_of (pushTickToHistory ts (Some prices) s)) !! chartAsset s = Some data →
  2 ≤ length data →
  let last := at_index data (length data - 1) in
  let previous := at_index data (length data - 2) in
  ∃ s' c',
    pushTickToHistory ts (Some prices) s = Normal s'
    ∧ chart s' = Some c'
    ∧ (borderColor c' = "#00c853" ∨ borderColor c' = "#ff3b30")
    ∧ (last = previous ∨ Js.eq (Js.toNumber last) (Js.toNumber previous) = true →
       borderColor c' = "#ff3b30" ∧ backgroundColor c' = "rgba(255, 59, 48, 0.1)").
Proof.
  intros Hc Hdata Hlen last previous.
  destruct (pushTick_data ts prices s) as [_ HH]. rewrite HH in Hdata.
  unfold pushTickToHistory, get. simpl. rewrite Hc, Hdata.
  rewrite bool_decide_true by done.
  eexists _, _. split; [reflexivity|]. split; [reflexivity|]. simpl.
  fold last previous. split.
  - unfold lineColor. destruct (Js.gt_slot last previous); auto.
  - intros Heq.
    assert (Js.gt_slot last previous = false) as ->; [|done].
    unfold Js.gt_slot. destruct Heq as [->|Heq];
      [apply JsFacts.gt_irrefl|by apply JsFacts.eq_not_gt].
Qed.

(** C10 on a second tick at the same price. *)
Lemma pushTick_flat_is_red_example :
  ∃ s' c',
    pushTickToHistory "09:00:02" (Some {["OIL" := 100%float]}) oneTick = Normal s'
    ∧ chart s' = Some c'
    ∧ borderColor c' = "#ff3b30".
Proof.
  destruct (pushTick_flat_is_red "09:00:02" {["OIL" := 100%float]} oneTick
              {| label := "OIL"; data := "OIL"; borderColor := "#007aff";
                 backgroundColor := "rgba(0, 122, 255, 0.1)" |}
              [Some 100%float; Some 100%float])
    as (s' & c' & Hrun & Hchart & _ & Hred);
    [vm_compute; reflexivity | vm_compute; reflexivity | simpl; lia |].
  exists s', c'. split; [exact Hrun|]. split; [exact Hchart|].
  apply Hred. left. reflexivity.
Defined.

End ChartFacts.

(** ** Market data ([market.js]) *)

Module MarketFacts.
Import Constants Market Fixture Session MarketTrace.

(** Ids built from different prefixes, or from different assets, differ. *)
Local Ltac id_ne :=
  let H := fresh in
  intros H;
  first [ congruence
        | apply String.app_inj in H; congruence
        | vm_compute in H; discriminate H ].

Local Ltac look :=
  repeat first
    [ rewrite lookup_alter_eq
    | rewrite lookup_insert_eq
    | rewrite lookup_alter_ne by id_ne
    | rewrite lookup_insert_ne by id_ne ].

Lemma updateAsset_own priceMap s asset :
  view_of asset (updateAsset priceMap s asset)
  = step_view (priceMap !! asset) (view_of asset s).
Proof.
  unfold updateAsset, Ui.byId. destruct (priceMap !! asset) as [price|]; [|done].
  destruct s as [m d]. unfold view_of, step_view. simpl.
  look.
  destruct (d !! ("mp_" +:+ asset)) as [marketCell|] eqn:Hmp;
    destruct (previousPrices m !! asset) as [prev|]; simpl; look;
    rewrite ?Hmp; reflexivity.
Qed.

Lemma updateAsset_other priceMap s asset other :
  asset ≠ other →
  view_of asset (updateAsset priceMap s other) = view_of asset s.
Proof.
  intros Hne. unfold updateAsset, Ui.byId.
  destruct (priceMap !! other) as [price|]; [|done].
  destruct s as [m d]. unfold view_of. simpl.
  look.
  destruct (d !! ("mp_" +:+ other)) as [marketCell|] eqn:Hmp;
    destruct (previousPrices m !! other) as [prev|]; simpl; look;
    rewrite ?Hmp; reflexivity.
Qed.

Lemma foldl_updateAsset_out priceMap (l : list string) s asset :
  asset ∉ l → view_of asset (foldl (updateAsset priceMap) s l) = view_of asset s.
Proof.
  revert s. induction l as [|other l IH]; intros s Hout; [done|].
  apply not_elem_of_cons in Hout as [Hne Hout]. simpl.
  rewrite IH by done. by apply updateAsset_other.
Qed.

Lemma foldl_updateAsset_in priceMap (l : list string) s asset :
  NoDup l → asset ∈ l →
  view_of asset (foldl (updateAsset priceMap) s l)
  = step_view (priceMap !! asset) (view_of asset s).
Proof.
  revert s. induction l as [|other l IH]; intros s Hnd Hin; [by apply elem_of_nil in Hin|].
  apply NoDup_cons in Hnd as [Hfresh Hnd]. simpl.
  destruct (decide (asset = other)) as [->|Hne].
  - rewrite foldl_updateAsset_out by done. apply updateAsset_own.
  - apply elem_of_cons in Hin as [?|Hin]; [done|].
    rewrite IH by done. by rewrite updateAsset_other.
Qed.

Lemma ASSETS_NoDup : NoDup ASSETS.
Proof. apply (bool_decide_unpack _). vm_compute. exact I. Qed.

(** One tick acts on each configured asset alone. *)
Lemma updatePrices_view priceMap s asset :
  view_of asset (updatePrices (Some priceMap) s)
  = if bool_decide (asset ∈ ASSETS)
    then step_view (priceMap !! asset) (view_of asset s)
    else view_of asset s.
Proof.
  unfold updatePrices. case_bool_decide.
  - apply foldl_updateAsset_in; [apply ASSETS_NoDup|done].
  - by apply foldl_updateAsset_out.
Qed.

Lemma pushHistory_window (c : list float) price :
  pushHistory price (drop (length c - 20) c)
  = drop (length (c ++ [price]) - 20) (c ++ [price]).
Proof.
  unfold pushHistory. rewrite !length_app, length_drop. simpl.
  case_bool_decide as Hfull.
  - rewrite drop_app_le by (rewrite length_drop; lia).
    rewrite drop_drop, drop_app_le by lia. do 2 f_equal. lia.
  - replace (length c - 20) with 0 by lia.
    replace (length c + 1 - 20) with 0 by lia. done.
Qed.

Lemma carried_snoc asset ticks priceMap :
  carried asset (ticks ++ [priceMap])
  = carried asset ticks ++ match priceMap !! asset with Some p => [p] | None => [] end.
Proof.
  unfold carried. rewrite omap_app. simpl. by destruct (priceMap !! asset).
Qed.

Lemma init_view asset :
  previousPrices init !! asset = None
  ∧ priceHistory init !! asset = if bool_decide (asset ∈ ASSETS) then Some [] else None.
Proof.
  split; [done|]. unfold init, ASSETS. simpl.
  case_bool_decide as Hin.
  - repeat (apply elem_of_cons in Hin as [->|Hin]; [by vm_compute|]).
    by apply elem_of_nil in Hin.
  - repeat (apply not_elem_of_cons in Hin as [? Hin]).
    by rewrite !lookup_insert_ne, lookup_empty.
Qed.

(** The state after a sequence of ticks: the previous price of an asset is
    the last price carried for it, and its history holds the last 20. *)
Lemma reach_view ticks m asset :
  reach ticks m →
  previousPrices m !! asset
    = (if bool_decide (asset ∈ ASSETS) then last (carried asset ticks) else None)
  ∧ priceHistory m !! asset
    = (if bool_decide (asset ∈ ASSETS)
       then Some (drop (length (carried asset ticks) - 20) (carried asset ticks))
       else None).
Proof.
  induction 1 as [|ticks m priceMap d _ [IHp IHh]].
  - destruct (init_view asset) as [-> ->]. by case_bool_decide.
  - pose proof (updatePrices_view priceMap (m, d) asset) as Hv.
    assert (previousPrices (updatePrices (Some priceMap) (m, d)).1 !! asset
            = v_prev (view_of asset (updatePrices (Some priceMap) (m, d)))) as -> by done.
    assert (priceHistory (updatePrices (Some priceMap) (m, d)).1 !! asset
            = v_hist (view_of asset (updatePrices (Some priceMap) (m, d)))) as -> by done.
    rewrite Hv, carried_snoc. clear Hv.
    case_bool_decide; [|done].
    destruct (priceMap !! asset) as [price|]; simpl.
    + rewrite last_snoc. split; [done|]. rewrite IHh. simpl.
      f_equal. apply pushHistory_window.
    + by rewrite app_nil_r.
Qed.

(** C2: after any sequence of ticks the sparkline history of every asset
    has at most 20 points, namely the last 20 prices carried for the asset
    in the order received; a tick that carries a price appends it and, when
    the history was full, drops exactly its oldest point. *)
Theorem sparkline_history_fifo ticks m :
  reach ticks m →
  ∀ asset,
    let h := default [] (priceHistory m !! asset) in
    length h ≤ 20
    ∧ (asset ∈ ASSETS →
       h = drop (length (carried asset ticks) - 20) (carried asset ticks))
    ∧ ∀ priceMap d,
        let h' :=
          default [] (priceHistory (updatePrices (Some priceMap) (m, d)).1 !! asset) in
        (∀ price, asset ∈ ASSETS → priceMap !! asset = Some price →
           h' = (if bool_decide (length h < 20) then h else drop 1 h) ++ [price])
        ∧ (priceMap !! asset = None → h' = h).
Proof.
  intros Hreach asset h.
  destruct (reach_view ticks m asset Hreach) as [_ Hh].
  assert (length h ≤ 20) as Hlen.
  { unfold h. rewrite Hh. case_bool_decide; simpl; [|lia].
    rewrite length_drop. lia. }
  split; [done|]. split.
  { intros Hin. unfold h. by rewrite Hh, bool_decide_true. }
  intros priceMap d h'.
  assert (priceHistory (updatePrices (Some priceMap) (m, d)).1 !! asset
          = v_hist (view_of asset (updatePrices (Some priceMap) (m, d)))) as Hv by done.
  unfold h'. rewrite Hv, updatePrices_view. clear Hv. split.
  - intros price Hin Hprice. rewrite bool_decide_true, Hprice by done. simpl.
    fold h. unfold pushHistory. rewrite length_app. simpl.
    repeat case_bool_decide; try lia; try done.
    rewrite drop_app_le; [done|lia].
  - intros ->. by case_bool_decide.
Qed.

Lemma reach_applyTicks ticks d : reach ticks (applyTicks ticks (init, d)).1.
Proof.
  induction ticks as [|priceMap ticks IH] using rev_ind; [constructor|].
  unfold applyTicks in *. rewrite foldl_app. simpl.
  destruct (foldl _ (init, d) ticks) as [m d']. by constructor.
Qed.

(** C2 on twenty-one ticks of OIL: the first price has left the history,
    which holds the prices 2 to 21 in order. *)
Lemma sparkline_history_fifo_full :
  let m := (applyTicks twentyOneTicks (init, tradingPage)).1 in
  length (default [] (priceHistory m !! "OIL")) ≤ 20
  ∧ default [] (priceHistory m !! "OIL")
    = [2; 3; 4; 5; 6; 7; 8; 9; 10; 11; 12; 13; 14; 15; 16; 17; 18; 19; 20; 21]%float.
Proof.
  intros m.
  destruct (sparkline_history_fifo twentyOneTicks m
              (reach_applyTicks twentyOneTicks tradingPage) "OIL")
    as (Hlen & Hh & _).
  split; [exact Hlen|].
  rewrite Hh by (unfold ASSETS; repeat constructor). vm_compute. reflexivity.
Defined.

Lemma class_add_elem tok' tok (c : list string) :
  tok' ∈ class_add tok c ↔ tok' = tok ∨ tok' ∈ c.
Proof.
  unfold class_add. case_bool_decide.
  - split; [auto|]. by intros [->|].
  - rewrite elem_of_app, list_elem_of_singleton. tauto.
Qed.

Lemma class_remove_elem tok' tok (c : list string) :
  tok' ∈ class_remove tok c ↔ tok' ≠ tok ∧ tok' ∈ c.
Proof. unfold class_remove. by rewrite list_elem_of_filter. Qed.

(** The flash class of a row after a change: green exactly for a rise, red
    exactly for a fall. *)
Lemma flash_direction change (marketRow : element) :
  ("flash-green" ∈ classList (flash change marketRow) ↔ Js.gt change 0 = true)
  ∧ ("flash-red" ∈ classList (flash change marketRow) ↔ Js.lt change 0 = true).
Proof.
  unfold flash. destruct (Js.gt change 0) eqn:Hgt; simpl.
  - assert (Js.lt change 0 = false) as Hlt.
    { destruct (Js.lt change 0) eqn:Hlt; [|done].
      apply JsFacts.lt_not_gt in Hlt. congruence. }
    rewrite Hlt, !class_add_elem, !class_remove_elem.
    intuition (congruence || auto).
  - destruct (Js.lt change 0) eqn:Hlt; simpl;
      rewrite ?class_add_elem, !class_remove_elem;
      intuition (congruence || auto).
Qed.

(** Away from [NaN], the flat class is the class of a zero change only. *)
Lemma changeClass_flat change :
  Js.eq change change = true →
  changeClass change = ["price-change"] → Js.eq change 0 = true.
Proof.
  intros Hnum. unfold changeClass.
  destruct (Js.gt change 0) eqn:Hgt; [discriminate|].
  destruct (Js.lt change 0) eqn:Hlt; [discriminate|]. intros _.
  by apply JsFacts.not_gt_lt_eq.
Qed.

Lemma changeClass_sign change :
  by_sign change (changeClass change)
    ["price-change"; "up"] ["price-change"; "down"] ["price-change"].
Proof.
  unfold by_sign, changeClass. repeat split.
  - by intros ->.
  - intros H. by rewrite (JsFacts.lt_not_gt _ _ H), H.
  - intros H. by rewrite (JsFacts.eq_not_gt _ _ H), (JsFacts.eq_not_lt _ _ H).
Qed.

(** C3: on a market table that holds the cells of the asset, the first
    tick that carries a price for the asset writes "-" in its change and
    percent cells and leaves its row without a flash. Every later tick
    that carries a price writes the change [price - previousPrice] and the
    percentage [change / previousPrice * 100], each with a [+] in front
    when it is not negative, where [previousPrice] is the last price
    carried before; it gives the change cell the class of the sign of
    the change, and flashes the row green exactly for a rise and red
    exactly for a fall. The percent cell gets the class of the sign of
    the percentage. *)
Theorem price_change_rendering ticks m priceMap asset price (d : dom)
    (marketCell changeCell changePctCell marketRow : element) :
  reach ticks m →
  asset ∈ ASSETS →
  priceMap !! asset = Some price →
  d !! ("mp_" +:+ asset) = Some marketCell →
  d !! ("mchg_" +:+ asset) = Some changeCell →
  d !! ("mchgp_" +:+ asset) = Some changePctCell →
  d !! ("market_row_" +:+ asset) = Some marketRow →
  let d' := (updatePrices (Some priceMap) (m, d)).2 in
  match last (carried asset ticks) with
  | None =>
      d' !! ("mchg_" +:+ asset) = Some (set_textContent [Lit "-"] changeCell)
      ∧ d' !! ("mchgp_" +:+ asset) = Some (set_textContent [Lit "-"] changePctCell)
      ∧ d' !! ("market_row_" +:+ asset) = Some marketRow
  | Some previousPrice =>
      let delta := (price - previousPrice)%float in
      let deltaPct := (delta / previousPrice * 100)%float in
      ∃ trend pctClass marketRow',
        d' !! ("mchg_" +:+ asset)
          = Some (set_classList trend
                    (set_textContent
                       [Lit (if Js.ge delta 0 then "+" else ""); Fixed2 delta]
                       changeCell))
        ∧ by_sign delta trend
            ["price-change"; "up"] ["price-change"; "down"] ["price-change"]
        ∧ d' !! ("mchgp_" +:+ asset)
          = Some (set_classList pctClass
                    (set_textContent
                       [Lit (if Js.ge deltaPct 0 then "+" else ""); Fixed2 deltaPct;
                        Lit "%"]
                       changePctCell))
        ∧ by_sign deltaPct pctClass
            ["price-change"; "up"] ["price-change"; "down"] ["price-change"]
        ∧ d' !! ("market_row_" +:+ asset) = Some marketRow'
        ∧ ("flash-green" ∈ classList marketRow' ↔ Js.gt delta 0 = true)
        ∧ ("flash-red" ∈ classList marketRow' ↔ Js.lt delta 0 = true)
  end.
Proof.
  intros Hreach Hin Hprice Hmp Hmchg Hmchgp Hrow d'.
  destruct (reach_view ticks m asset Hreach) as [Hprev _].
  rewrite bool_decide_true in Hprev by done.
  pose proof (updatePrices_view priceMap (m, d) asset) as Hv.
  rewrite bool_decide_true, Hprice in Hv by done.
  assert (d' !! ("mchg_" +:+ asset)
          = v_mchg (view_of asset (updatePrices (Some priceMap) (m, d)))) as -> by done.
  assert (d' !! ("mchgp_" +:+ asset)
          = v_mchgp (view_of asset (updatePrices (Some priceMap) (m, d)))) as -> by done.
  assert (d' !! ("market_row_" +:+ asset)
          = v_row (view_of asset (updatePrices (Some priceMap) (m, d)))) as -> by done.
  rewrite Hv. unfold step_view, view_of. simpl.
  rewrite Hprev, Hmp, Hmchg, Hmchgp, Hrow.
  destruct (last (carried asset ticks)) as [previousPrice|]; simpl; [|done].
  eexists _, _, _. split; [reflexivity|]. split; [apply changeClass_sign|].
  split; [reflexivity|]. split; [apply changeClass_sign|].
  split; [reflexivity|]. apply flash_direction.
Qed.

(** C3 on OIL priced 100 then 101: no change is shown on the first tick,
    and the second shows a rise of 1, in the rising class, with a green
    flash. *)
Lemma price_change_rendering_two_ticks :
  let s1 := updatePrices (Some firstTick) (init, tradingPage) in
  let s2 := updatePrices (Some secondTick) s1 in
  textContent <$> s1.2 !! "mchg_OIL" = Some [Lit "-"]
  ∧ textContent <$> s1.2 !! "mchgp_OIL" = Some [Lit "-"]
  ∧ textContent <$> s2.2 !! "mchg_OIL" = Some [Lit "+"; Fixed2 (101 - 100)]
  ∧ classList <$> s2.2 !! "mchg_OIL" = Some ["price-change"; "up"]
  ∧ textContent <$> s2.2 !! "mchgp_OIL"
    = Some [Lit "+"; Fixed2 ((101 - 100) / 100 * 100); Lit "%"]
  ∧ classList <$> s2.2 !! "mchgp_OIL" = Some ["price-change"; "up"]
  ∧ (∃ marketRow',
       s2.2 !! "market_row_OIL" = Some marketRow'
       ∧ "flash-green" ∈ classList marketRow'
       ∧ "flash-red" ∉ classList marketRow').
Proof.
  intros s1 s2.
  assert ("OIL" ∈ ASSETS) as Hin by (unfold ASSETS; repeat constructor).
  pose proof (price_change_rendering [] init firstTick "OIL" 100 tradingPage
                priceCell changeCell changeCell blank reach_init Hin
                eq_refl eq_refl eq_refl eq_refl eq_refl) as H1.
  change (s1.2 !! ("mchg_" +:+ "OIL") = Some (set_textContent [Lit "-"] changeCell)
          ∧ s1.2 !! ("mchgp_" +:+ "OIL") = Some (set_textContent [Lit "-"] changeCell)
          ∧ s1.2 !! ("market_row_" +:+ "OIL") = Some blank) in H1.
  destruct H1 as (H1a & H1b & _).
  pose proof (price_change_rendering ([] ++ [firstTick]) s1.1 secondTick "OIL" 101 s1.2
                (set_textContent [Fixed2 100] priceCell)
                (set_textContent [Lit "-"] changeCell)
                (set_textContent [Lit "-"] changeCell) blank
                (reach_tick [] init firstTick tradingPage reach_init) Hin
                eq_refl eq_refl eq_refl eq_refl eq_refl) as H2.
  change (∃ trend pctClass marketRow',
            s2.2 !! ("mchg_" +:+ "OIL")
              = Some (set_classList trend
                        (set_textContent [Lit "+"; Fixed2 (101 - 100)]
                           (set_textContent [Lit "-"] changeCell)))
            ∧ by_sign (101 - 100)%float trend
                ["price-change"; "up"] ["price-change"; "down"] ["price-change"]
            ∧ s2.2 !! ("mchgp_" +:+ "OIL")
              = Some (set_classList pctClass
                        (set_textContent
                           [Lit "+"; Fixed2 ((101 - 100) / 100 * 100); Lit "%"]
                           (set_textContent [Lit "-"] changeCell)))
            ∧ by_sign ((101 - 100) / 100 * 100)%float pctClass
                ["price-change"; "up"] ["price-change"; "down"] ["price-change"]
            ∧ s2.2 !! ("market_row_" +:+ "OIL") = Some marketRow'
            ∧ ("flash-green" ∈ classList marketRow' ↔ Js.gt (101 - 100) 0 = true)
            ∧ ("flash-red" ∈ classList marketRow' ↔ Js.lt (101 - 100) 0 = true)) in H2.
  destruct H2 as (trend & pctClass & marketRow' & H2a & (Hup & _) & H2b & (Hpct & _)
                  & H2c & Hgreen & Hred).
  rewrite (Hup eq_refl) in H2a. rewrite (Hpct eq_refl) in H2b.
  split; [exact (f_equal (fmap textContent) H1a)|].
  split; [exact (f_equal (fmap textContent) H1b)|].
  split; [exact (f_equal (fmap textContent) H2a)|].
  split; [exact (f_equal (fmap classList) H2a)|].
  split; [exact (f_equal (fmap textContent) H2b)|].
  split; [exact (f_equal (fmap classList) H2b)|].
  exists marketRow'. split; [exact H2c|]. split; [apply Hgreen; reflexivity|].
  intros Hin_red. apply Hred in Hin_red. discriminate Hin_red.
Defined.

(** The class of the percent cell follows the percentage, not the change:
    on OIL priced -100 then -50 the change cell is in the rising class,
    with a green flash, and the percent cell in the falling class. *)
Example percent_class_follows_percentage :
  let s1 := updatePrices (Some {["OIL" := (-100)%float]}) (init, tradingPage) in
  let s2 := updatePrices (Some {["OIL" := (-50)%float]}) s1 in
  classList <$> s2.2 !! "mchg_OIL" = Some ["price-change"; "up"]
  ∧ classList <$> s2.2 !! "mchgp_OIL" = Some ["price-change"; "down"]
  ∧ classList <$> s2.2 !! "market_row_OIL" = Some ["flash-green"].
Proof. vm_compute. repeat split. Qed.

End MarketFacts.

(** ** Log panel, roster, portfolio and leaderboard tables *)

Module PanelFacts.
Import Fixture Session Panels Portfolio Modal Socket.

(** Strings with and without markup. *)
Example plain_strings :
  plain "A" = true ∧ plain "Alice Martin" = true ∧ plain "" = true
  ∧ plain "<!--" = false ∧ plain "<i id='zz'>x</i>" = false
  ∧ plain "Tom &amp; Co" = false.
Proof. vm_compute. repeat split. Qed.

(** X1: After any messages are logged on a page with a log panel of at most 50
    entries, the panel holds the newest entries first, followed by the
    older ones, cut to the 50 most recent. *)
Theorem log_keeps_newest_50 (msgs : list (string * html)) (d : dom) (el : element) :
  d !! "log" = Some el →
  length (children el) ≤ 50 →
  ∃ el',
    logAll msgs d !! "log" = Some el'
    ∧ children el' = take 50 (reverse (logEntry <$> msgs) ++ children el)
    ∧ length (children el') ≤ 50.
Proof.
  intros Hel Hlen. induction msgs as [|tm msgs IH] using rev_ind.
  - exists el. simpl. rewrite take_ge by done. done.
  - destruct IH as (el1 & Hel1 & Hch & Hlen1).
    unfold logAll in *. rewrite foldl_app. simpl.
    unfold Ui.log at 1, Ui.byId. rewrite Hel1.
    eexists. split; [apply lookup_insert_eq|]. simpl.
    rewrite fmap_app, reverse_app. simpl. rewrite Hch.
    split.
    + f_equal. rewrite take_take. done.
    + rewrite length_take. apply le_n_S, Nat.le_min_l.
Qed.

Lemma log_keeps_newest_50_example :
  ∃ el',
    logAll [("09:00:00", [Lit "WebSocket connected"]); ("09:00:05", [Lit "Game ended."])]
      page !! "log" = Some el'
    ∧ children el'
      = [logEntry ("09:00:05", [Lit "Game ended."]);
         logEntry ("09:00:00", [Lit "WebSocket connected"])].
Proof.
  destruct (log_keeps_newest_50
              [("09:00:00", [Lit "WebSocket connected"]); ("09:00:05", [Lit "Game ended."])]
              page blank eq_refl) as (el' & Hel & Hch & _); [simpl; lia|].
  exists el'. split; [exact Hel|]. rewrite Hch. reflexivity.
Defined.

Local Ltac lookups :=
  repeat first [ rewrite lookup_alter_eq
               | rewrite lookup_insert_eq
               | rewrite lookup_alter_ne by done
               | rewrite lookup_insert_ne by done ].

Local Ltac kpi_case k :=
  destruct (decide (_ = k)) as [->|?]; [lookups; reflexivity|].

Lemma kpi_lookup (p : portfolio) (d : dom) id :
  let totalPnL := (uPnL p + realizedPnL p)%float in
  alter (λ e, set_classList
                ["pnl-value"; if Js.ge totalPnL 0 then "positive" else "negative"]
                (set_textContent (formatPnL totalPnL) e)) "k_pnl_top"
    (alter (set_textContent [Fixed2 (equity p)]) "k_equity_top"
    (alter (set_textContent [Fixed2 (cash p)]) "k_cash_top"
    (alter (λ e, set_classList ["kpi-value"; "pnl-value"; getPnLClass (realizedPnL p)]
                   (set_textContent (formatPnL (realizedPnL p)) e)) "k_rpnl"
    (alter (λ e, set_classList ["kpi-value"; "pnl-value"; getPnLClass (uPnL p)]
                   (set_textContent (formatPnL (uPnL p)) e)) "k_upnl"
    (alter (set_textContent [Fixed2 (equity p)]) "k_equity"
    (alter (set_textContent [Fixed2 (cash p)]) "k_cash" d)))))) !! id
  = paint p id <$> d !! id.
Proof.
  intros totalPnL. unfold paint. fold totalPnL.
  kpi_case "k_cash". kpi_case "k_equity". kpi_case "k_upnl". kpi_case "k_rpnl".
  kpi_case "k_cash_top". kpi_case "k_equity_top". kpi_case "k_pnl_top".
  lookups. by destruct (d !! id).
Qed.

Lemma renderPortfolio_lookup (p : portfolio) (d : dom) id :
  renderPortfolio (Some p) d !! id
  = painted p (bool_decide (is_Some (d !! "pos_rows"))) id <$> d !! id.
Proof.
  unfold renderPortfolio, Ui.byId, painted. cbv zeta.
  pose proof (kpi_lookup p d) as Hkpi. cbv zeta in Hkpi.
  rewrite (Hkpi "pos_rows").
  assert (paint p "pos_rows" = λ e, e) as -> by done.
  rewrite option_fmap_id.
  destruct (d !! "pos_rows") as [posTb|] eqn:Hpos.
  - rewrite bool_decide_true by eauto.
    rewrite lookup_insert_ne, (Hkpi "trades_rows") by done.
    assert (paint p "trades_rows" = λ e, e) as -> by done.
    rewrite option_fmap_id.
    destruct (decide (id = "pos_rows")) as [->|Hn1].
    { destruct (d !! "trades_rows"); lookups; by rewrite ?Hpos. }
    destruct (decide (id = "trades_rows")) as [->|Hn2].
    { destruct (d !! "trades_rows") eqn:Htr; lookups; by rewrite ?Htr. }
    destruct (d !! "trades_rows"); lookups; apply Hkpi.
  - rewrite bool_decide_false by (by intros [? ?]).
    destruct (decide (id = "pos_rows")) as [->|Hn1].
    { by rewrite Hkpi, Hpos. }
    destruct (decide (id = "trades_rows")) as [->|Hn2].
    { rewrite Hkpi. by destruct (d !! "trades_rows"). }
    apply Hkpi.
Qed.

Lemma painted_absorbs (p q : portfolio) b id (e : element) :
  painted q b id (painted p b id e) = painted q b id e.
Proof.
  unfold painted, paint.
  repeat (destruct (decide (id = _)); [by destruct b, e|]).
  by destruct e.
Qed.

(** X2: A portfolio snapshot overwrites all that the previous one drew: the
    panel after two snapshots is the panel after the second one alone. *)
Theorem renderPortfolio_last_snapshot (p q : portfolio) (d : dom) :
  renderPortfolio (Some q) (renderPortfolio (Some p) d) = renderPortfolio (Some q) d.
Proof.
  apply map_eq. intros id.
  rewrite !renderPortfolio_lookup.
  assert (bool_decide (is_Some (painted p (bool_decide (is_Some (d !! "pos_rows"))) "pos_rows" <$> d !! "pos_rows"))
          = bool_decide (is_Some (d !! "pos_rows"))) as ->.
  { apply bool_decide_ext. by rewrite fmap_is_Some. }
  destruct (d !! id); simpl; [|done]. by rewrite painted_absorbs.
Qed.

(** X3: On a page without a positions table [renderPortfolio] returns before
    it reaches the trade history, which keeps its rows; the KPI elements
    are written all the same. *)
Theorem renderPortfolio_without_positions_table (p : portfolio) (d : dom) :
  d !! "pos_rows" = None →
  renderPortfolio (Some p) d !! "trades_rows" = d !! "trades_rows"
  ∧ renderPortfolio (Some p) d !! "k_cash"
    = set_textContent [Fixed2 (cash p)] <$> d !! "k_cash"
  ∧ renderPortfolio (Some p) d !! "k_rpnl"
    = (λ e, set_classList ["kpi-value"; "pnl-value"; getPnLClass (realizedPnL p)]
              (set_textContent (formatPnL (realizedPnL p)) e)) <$> d !! "k_rpnl".
Proof.
  intros Hpos. rewrite !renderPortfolio_lookup, Hpos.
  rewrite bool_decide_false by (by intros [? ?]).
  split; [by destruct (d !! "trades_rows")|]. split; reflexivity.
Qed.

Lemma renderPortfolio_without_positions_table_example :
  renderPortfolio (Some sevenTrades) (delete "pos_rows" page) !! "trades_rows"
  = Some blank.
Proof.
  destruct (renderPortfolio_without_positions_table sevenTrades (delete "pos_rows" page))
    as [H _]; [vm_compute; reflexivity|].
  rewrite H. vm_compute. reflexivity.
Defined.

(** X4: The positions table gets one row per position, in the order of the
    snapshot. When the asset of a position is a plain string its row has
    seven cells: asset, quantity, average, price, market value, and the
    unrealized P&L as a number and as a percentage of the average, both
    with their sign and with the class that follows the sign of the
    unrealized P&L; otherwise the row is the text of the template filled
    with the same values, left to the HTML parser. *)
Theorem renderPortfolio_positions (p : portfolio) (d : dom) :
  is_Some (d !! "pos_rows") →
  let l := default [] (positions p) in
  ∃ rendered,
    children <$> renderPortfolio (Some p) d !! "pos_rows" = Some rendered
    ∧ length rendered = length l
    ∧ ∀ i row, l !! i = Some row →
        let pnlPct := ((price row - avg row) / avg row * 100)%float in
        ∃ pnlClass,
          by_sign (pos_uPnL row) pnlClass "pnl-positive" "pnl-negative" "pnl-neutral"
          ∧ (plain (pos_asset row) = true →
             rendered !! i
             = Some (Tr "" [Td "" [Lit (pos_asset row)];
                            Td "" [Num (pos_qty row)];
                            Td "" [Fixed2 (avg row)];
                            Td "" [Fixed2 (price row)];
                            Td "" [Fixed2 (mktValue row)];
                            Td pnlClass
                               [Lit (if Js.ge (pos_uPnL row) 0 then "+" else "");
                                Fixed2 (pos_uPnL row)];
                            Td pnlClass
                               [Lit (if Js.ge pnlPct 0 then "+" else "");
                                Fixed2 pnlPct; Lit "%"]]))
          ∧ (plain (pos_asset row) = false →
             rendered !! i
             = Some (Markup ""
                       [Lit "<td><strong>"; Lit (pos_asset row);
                        Lit "</strong></td><td>"; Num (pos_qty row); Lit "</td><td>";
                        Fixed2 (avg row); Lit "</td><td>"; Fixed2 (price row);
                        Lit "</td><td>"; Fixed2 (mktValue row);
                        Lit "</td><td class='"; Lit pnlClass; Lit "'>";
                        Lit (if Js.ge (pos_uPnL row) 0 then "+" else "");
                        Fixed2 (pos_uPnL row);
                        Lit "</td><td class='"; Lit pnlClass; Lit "'>";
                        Lit (if Js.ge pnlPct 0 then "+" else "");
                        Fixed2 pnlPct; Lit "%</td>"])).
Proof.
  intros [posTb Hpos] l. exists (positionRow <$> l).
  split; [|split; [apply length_fmap|]].
  - rewrite renderPortfolio_lookup, Hpos. reflexivity.
  - intros i row Hrow pnlPct. exists (getPnLClass (pos_uPnL row)).
    split; [apply ViewFacts.portfolio_getPnLClass_sign|].
    rewrite list_lookup_fmap, Hrow. simpl. unfold positionRow, formatPnL.
    fold pnlPct. split; intros ->; reflexivity.
Qed.

Lemma renderPortfolio_positions_example :
  ∃ rendered,
    children <$> renderPortfolio
                   (Some {| cash := 9000; equity := 10010; uPnL := 10; realizedPnL := 0;
                            positions :=
                              Some [{| pos_asset := "OIL"; pos_qty := 10; avg := 100;
                                       price := 101; mktValue := 1010; pos_uPnL := 10 |}];
                            trades := None |}) page !! "pos_rows"
    = Some rendered
    ∧ rendered
      = [Tr "" [Td "" [Lit "OIL"]; Td "" [Num 10]; Td "" [Fixed2 100];
                Td "" [Fixed2 101]; Td "" [Fixed2 1010];
                Td "pnl-positive" [Lit "+"; Fixed2 10];
                Td "pnl-positive" [Lit "+"; Fixed2 ((101 - 100) / 100 * 100); Lit "%"]]].
Proof.
  destruct (renderPortfolio_positions
              {| cash := 9000; equity := 10010; uPnL := 10; realizedPnL := 0;
                 positions :=
                   Some [{| pos_asset := "OIL"; pos_qty := 10; avg := 100;
                            price := 101; mktValue := 1010; pos_uPnL := 10 |}];
                 trades := None |} page)
    as (rendered & Hrows & Hlen & Hrow); [vm_compute; eauto|].
  exists rendered. split; [exact Hrows|].
  destruct (Hrow 0 _ eq_refl) as (c0 & (Hpos0 & _ & _) & Hrow0 & _).
  rewrite (Hpos0 eq_refl) in Hrow0. specialize (Hrow0 eq_refl).
  clear Hrows Hrow.
  destruct rendered as [|r0 [|r1 rest]]; try discriminate Hlen.
  injection Hrow0 as ->. reflexivity.
Defined.

(** X5: A leaderboard snapshot replaces the rows of the previous one. *)
Theorem renderLeaderboard_last_snapshot rows1 rows2 (d : dom) :
  Leaderboard.renderLeaderboard rows2 (Leaderboard.renderLeaderboard rows1 d)
  = Leaderboard.renderLeaderboard rows2 d.
Proof.
  unfold Leaderboard.renderLeaderboard, Ui.byId.
  destruct (d !! "lb_rows") as [tb|] eqn:Htb; [|by rewrite Htb].
  rewrite lookup_insert_eq, insert_insert_eq. done.
Qed.

(** X6: A roster replaces the rows of the previous one. *)
Theorem renderPlayers_last_roster l1 l2 (d : dom) :
  Ui.renderPlayers l2 (Ui.renderPlayers l1 d) = Ui.renderPlayers l2 d.
Proof.
  unfold Ui.renderPlayers. apply map_eq. intros id.
  rewrite !lookup_alter. case_decide; [|done].
  by destruct (d !! "playersTbody").
Qed.

(** X30: The roster table gets one row per player, in the order of the
    roster. When the name and the user id of a player are plain strings
    the row has three cells: name, user id and the ready mark; otherwise
    the row is the text of the template filled with the same values, left
    to the HTML parser. *)
Theorem renderPlayers_rows (l : list Ui.player) (d : dom) :
  is_Some (d !! "playersTbody") →
  ∃ rendered,
    children <$> Ui.renderPlayers (Some l) d !! "playersTbody" = Some rendered
    ∧ length rendered = length l
    ∧ ∀ i p, l !! i = Some p →
        let mark := if Ui.ready p then "✅" else "❌" in
        (plain (Ui.name p) = true → plain (Ui.userId p) = true →
         rendered !! i
         = Some (Tr "" [Td "" [Lit (Ui.name p)];
                        Td "muted" [Lit (Ui.userId p)];
                        Td "" [Lit mark]]))
        ∧ (plain (Ui.name p) = false ∨ plain (Ui.userId p) = false →
           rendered !! i
           = Some (Markup "" [Lit "<td>"; Lit (Ui.name p);
                              Lit "</td><td class='muted'>"; Lit (Ui.userId p);
                              Lit "</td><td>"; Lit mark; Lit "</td>"])).
Proof.
  intros [tb Htb]. exists (Ui.playerRow <$> l).
  split; [|split; [apply length_fmap|]].
  - unfold Ui.renderPlayers. by rewrite lookup_alter_eq, Htb.
  - intros i p Hp mark. rewrite list_lookup_fmap, Hp. simpl.
    unfold Ui.playerRow. fold mark. split.
    + intros -> ->. reflexivity.
    + intros Hmarkup.
      assert (plain (Ui.name p) && plain (Ui.userId p) = false) as ->.
      { destruct Hmarkup as [-> | ->]; [done|apply andb_false_r]. }
      reflexivity.
Qed.

Lemma renderPlayers_rows_example :
  ∃ rendered,
    children <$> Ui.renderPlayers
                   (Some [{| Ui.name := "Alice"; Ui.userId := "U1"; Ui.ready := true |};
                          {| Ui.name := "<i id='zz'>x</i>"; Ui.userId := "U2";
                             Ui.ready := false |}])
                   page !! "playersTbody"
    = Some rendered
    ∧ rendered !! 0
      = Some (Tr "" [Td "" [Lit "Alice"]; Td "muted" [Lit "U1"]; Td "" [Lit "✅"]])
    ∧ rendered !! 1
      = Some (Markup "" [Lit "<td>"; Lit "<i id='zz'>x</i>";
                         Lit "</td><td class='muted'>"; Lit "U2";
                         Lit "</td><td>"; Lit "❌"; Lit "</td>"]).
Proof.
  destruct (renderPlayers_rows
              [{| Ui.name := "Alice"; Ui.userId := "U1"; Ui.ready := true |};
               {| Ui.name := "<i id='zz'>x</i>"; Ui.userId := "U2"; Ui.ready := false |}]
              page)
    as (rendered & Hc & _ & Hrows); [vm_compute; eauto|].
  exists rendered. split; [exact Hc|].
  destruct (Hrows 0 _ eq_refl) as [Hrow0 _].
  destruct (Hrows 1 _ eq_refl) as [_ Hrow1].
  split; [exact (Hrow0 eq_refl eq_refl)|]. apply Hrow1. left. reflexivity.
Defined.

(** X7: On a page with the modal, [toggleLeaderboard] flips its visibility and
    two toggles restore it; [showLeaderboard] and [hideLeaderboard] set it
    whatever it was. *)
Theorem toggleLeaderboard_flips (d : dom) :
  is_Some (d !! "leaderboardModal") →
  Ui.visible "leaderboardModal" (toggleLeaderboard d)
    = negb (Ui.visible "leaderboardModal" d)
  ∧ Ui.visible "leaderboardModal" (toggleLeaderboard (toggleLeaderboard d))
    = Ui.visible "leaderboardModal" d
  ∧ Ui.visible "leaderboardModal" (showLeaderboard d) = true
  ∧ Ui.visible "leaderboardModal" (hideLeaderboard d) = false.
Proof.
  intros [modal Hm].
  assert (∀ e, has_class "hidden"
                 (toggle_class "hidden" (negb (has_class "hidden" e)) e)
               = negb (has_class "hidden" e)) as Hflip.
  { intros e. destruct (has_class "hidden" e) eqn:He; simpl.
    - apply ScreenFacts.class_remove_has.
    - apply ScreenFacts.class_add_has. }
  unfold Ui.visible, Ui.byId, toggleLeaderboard, showLeaderboard, hideLeaderboard.
  rewrite !lookup_alter_eq, Hm. simpl.
  rewrite (Hflip (toggle_class "hidden" (negb (has_class "hidden" modal)) modal)).
  rewrite !(Hflip modal), negb_involutive.
  split; [done|]. split; [done|].
  split; [|by rewrite ScreenFacts.class_add_has].
  change (remove_class "hidden" modal) with (toggle_class "hidden" false modal).
  by rewrite ScreenFacts.class_remove_has.
Qed.

Lemma toggleLeaderboard_flips_example :
  Ui.visible "leaderboardModal"
    (toggleLeaderboard (<["leaderboardModal" := hiddenScreen]> page))
  = true.
Proof.
  destruct (toggleLeaderboard_flips (<["leaderboardModal" := hiddenScreen]> page))
    as [H _]; [vm_compute; eauto|].
  rewrite H. vm_compute. reflexivity.
Defined.

Lemma handle_wsStatus time ev (d : dom) :
  handle time ev d !! "wsStatus"
  = (λ s, set_classList ["badge"; if ev is onopen then "green" else "red"]
            (set_textContent [Lit (if ev is onopen then "connected" else "disconnected")] s))
      <$> d !! "wsStatus".
Proof.
  assert (∀ t m (d0 : dom), Ui.log t m d0 !! "wsStatus" = d0 !! "wsStatus") as Hlog.
  { intros t m d0. unfold Ui.log, Ui.byId. destruct (d0 !! "log"); [|done].
    by rewrite lookup_insert_ne. }
  destruct ev; unfold handle; rewrite Hlog; unfold Ui.setWsStatus;
    by rewrite lookup_alter_eq.
Qed.

(** X8: After socket events on a page with a status badge, the badge shows
    [connected] in green exactly when the last event is [onopen], and
    [disconnected] in red otherwise; its other classes are dropped. *)
Theorem badge_follows_last_event events time ev (d : dom) :
  is_Some (d !! "wsStatus") →
  ∃ badge,
    handleAll (events ++ [(time, ev)]) d !! "wsStatus" = Some badge
    ∧ textContent badge = [Lit (if ev is onopen then "connected" else "disconnected")]
    ∧ classList badge = ["badge"; if ev is onopen then "green" else "red"].
Proof.
  intros Hbadge.
  assert (is_Some (handleAll events d !! "wsStatus")) as [el Hel].
  { induction events as [|te events IH] using rev_ind; [done|].
    unfold handleAll in *. rewrite foldl_app. simpl.
    rewrite handle_wsStatus. by apply fmap_is_Some. }
  unfold handleAll in *. rewrite foldl_app. simpl.
  rewrite handle_wsStatus, Hel. simpl. eexists. split; [reflexivity|]. done.
Qed.

Lemma badge_follows_last_event_example :
  ∃ badge,
    handleAll [("09:00:00", onopen); ("09:30:00", onerror); ("09:30:00", onclose)]
      (<["wsStatus" := blank]> page) !! "wsStatus" = Some badge
    ∧ textContent badge = [Lit "disconnected"]
    ∧ classList badge = ["badge"; "red"].
Proof.
  apply (badge_follows_last_event [("09:00:00", onopen); ("09:30:00", onerror)]
           "09:30:00" onclose (<["wsStatus" := blank]> page)).
  vm_compute. eauto.
Defined.

End PanelFacts.

(** ** Chart selection ([chart.js]) *)

Module ChartSelectFacts.
Import Constants Chart Fixture ChartTrace.

(** X9: Selecting an asset that has a series, on a page with a chart, points
    the dataset at that series and leaves labels and series as they are.
    The line is green exactly when the series has two points or more and
    its last point is above its first one; with fewer points, or with
    equal end points, it is red. *)
Theorem updateChartAsset_overall_trend newAsset s c (data : list (option float)) :
  chart s = Some c →
  HISTORY s !! newAsset = Some data →
  let first := at_index data 0 in
  let last := at_index data (length data - 1) in
  ∃ s' c',
    updateChartAsset newAsset s = Normal s'
    ∧ chartAsset s' = newAsset
    ∧ LABELS s' = LABELS s ∧ HISTORY s' = HISTORY s
    ∧ chart s' = Some c'
    ∧ label c' = newAsset ∧ Chart.data c' = newAsset
    ∧ (borderColor c' = "#00c853" ∨ borderColor c' = "#ff3b30")
    ∧ (borderColor c' = "#00c853" ↔ 2 ≤ length data ∧ Js.gt_slot last first = true)
    ∧ (length data < 2 ∨ last = first → borderColor c' = "#ff3b30").
Proof.
  intros Hc Hdata first last. unfold updateChartAsset, get. simpl.
  rewrite Hc, Hdata.
  eexists _, _. repeat (split; [reflexivity|]). simpl. fold first last.
  unfold lineColor.
  split; [destruct (_ && _); auto|].
  split.
  - case_bool_decide as Hlen; simpl.
    + destruct (Js.gt_slot last first); split; try done; by intros [_ ?].
    + split; [done|]. by intros [? _].
  - intros [Hlt| ->].
    + rewrite bool_decide_false by lia. done.
    + unfold Js.gt_slot. rewrite JsFacts.gt_irrefl, andb_false_r. done.
Qed.

Lemma updateChartAsset_overall_trend_example :
  ∃ s' c',
    updateChartAsset "GOLD" oneTick = Normal s'
    ∧ chart s' = Some c'
    ∧ label c' = "GOLD" ∧ borderColor c' = "#ff3b30".
Proof.
  destruct (updateChartAsset_overall_trend "GOLD" oneTick
              {| label := "OIL"; data := "OIL"; borderColor := "#007aff";
                 backgroundColor := "rgba(0, 122, 255, 0.1)" |} [None])
    as (s' & c' & Hrun & _ & _ & _ & Hchart & Hlabel & _ & _ & _ & Hred);
    [vm_compute; reflexivity | vm_compute; reflexivity |].
  exists s', c'. split; [exact Hrun|]. split; [exact Hchart|].
  split; [exact Hlabel|]. apply Hred. left. simpl. lia.
Defined.

Lemma get_None (H : gmap string (list (option float))) name :
  get H name = None ↔ H !! name = None ∧ name ∉ prototypeNames.
Proof.
  unfold get. destruct (H !! name) as [series|]; [split; [done|by intros [? _]]|].
  rewrite fmap_None, <- not_elem_of_list_to_map.
  change (Js.inherited.*1) with prototypeNames.
  split; [by intros ?|by intros [_ ?]].
Qed.

Lemma get_pushed (f : string → list (option float) → list (option float))
    (H : gmap string (list (option float))) name :
  get (map_imap (λ asset arr, Some (f asset arr)) H) name = None ↔ get H name = None.
Proof.
  rewrite !get_None, map_lookup_imap.
  destruct (H !! name); simpl; [|done].
  split; by intros [? _].
Qed.


(** X11: Selecting a name that is neither a series nor a property inherited
    from [Object.prototype] raises after [chartAsset] is set. From then
    on every tick with prices raises as well: it still pushes its label,
    and leaves the chart and the selection as they are. *)
Theorem unknown_asset_poisons_ticks newAsset s c :
  chart s = Some c →
  HISTORY s !! newAsset = None →
  newAsset ∉ prototypeNames →
  ∃ s',
    updateChartAsset newAsset s = Thrown s'
    ∧ chartAsset s' = newAsset ∧ chart s' = Some c
    ∧ ∀ ts prices,
        ∃ s'', pushTickToHistory ts (Some prices) s' = Thrown s''
          ∧ LABELS s'' = push_shift ts (LABELS s)
          ∧ chart s'' = Some c ∧ chartAsset s'' = newAsset
          ∧ HISTORY s'' !! newAsset = None.
Proof.
  intros Hc Hnone Hproto.
  assert (get (HISTORY s) newAsset = None) as Hget by (by apply get_None).
  unfold updateChartAsset. simpl. rewrite Hc, Hget.
  eexists. split; [reflexivity|]. simpl. split; [done|]. split; [done|].
  intros ts prices. unfold pushTickToHistory. simpl.
  rewrite (proj2 (get_pushed _ _ _) Hget).
  eexists. split; [reflexivity|]. simpl.
  by rewrite map_lookup_imap, Hnone.
Qed.

Lemma unknown_asset_poisons_ticks_example :
  ∃ s' s'',
    updateChartAsset "SILVER" oneTick = Thrown s'
    ∧ pushTickToHistory "09:00:02" (Some {["OIL" := 101%float]}) s' = Thrown s''
    ∧ LABELS s'' = ["09:00:00"; "09:00:02"].
Proof.
  destruct (unknown_asset_poisons_ticks "SILVER" oneTick
              {| label := "OIL"; data := "OIL"; borderColor := "#007aff";
                 backgroundColor := "rgba(0, 122, 255, 0.1)" |})
    as (s' & Hrun & _ & _ & Hticks);
    [vm_compute; reflexivity | vm_compute; reflexivity
    | apply (bool_decide_unpack _); vm_compute; exact I |].
  destruct (Hticks "09:00:02" {["OIL" := 101%float]}) as (s'' & Htick & HL & _).
  exists s', s''. split; [exact Hrun|]. split; [exact Htick|].
  rewrite HL. vm_compute. reflexivity.
Defined.

(** X12: In every state of [chart.js], selecting one of [ASSETS] completes, and
    so does every tick that follows: a selection of a known asset also
    ends the raising that an unknown one started. *)
Theorem known_asset_selection_completes newAsset s :
  reachable s → newAsset ∈ ASSETS →
  ∃ s',
    updateChartAsset newAsset s = Normal s'
    ∧ chartAsset s' = newAsset
    ∧ ∀ ts prices, ∃ s'', pushTickToHistory ts prices s' = Normal s''.
Proof.
  intros Hs Hasset.
  destruct (ChartFacts.reachable_lockstep s Hs) as (_ & Hkeys & _).
  destruct (proj1 (Hkeys newAsset) Hasset) as [data Hdata].
  assert (∃ s', updateChartAsset newAsset s = Normal s' ∧ chartAsset s' = newAsset)
    as (s' & Hrun & Hsel).
  { unfold updateChartAsset, get. simpl. rewrite Hdata.
    destruct (chart s); eexists; split; reflexivity. }
  exists s'. split; [done|]. split; [done|]. intros ts prices.
  assert (reachable s') as Hs'.
  { replace s' with (state_of (updateChartAsset newAsset s)) by (by rewrite Hrun).
    by constructor. }
  destruct (ChartFacts.reachable_lockstep s' Hs') as (_ & Hkeys' & _).
  destruct (proj1 (Hkeys' newAsset) Hasset) as [data' Hdata'].
  unfold pushTickToHistory. destruct prices as [prices|]; [|eauto]. simpl.
  destruct (chart s'); [|eauto]. unfold get.
  rewrite map_lookup_imap, Hsel, Hdata'. simpl.
  case_bool_decide; eauto.
Qed.

Lemma known_asset_selection_completes_example :
  ∃ s' s'',
    updateChartAsset "GOLD" (state_of (updateChartAsset "SILVER" oneTick)) = Normal s'
    ∧ pushTickToHistory "09:00:02" (Some {["OIL" := 101%float]}) s' = Normal s''.
Proof.
  destruct (known_asset_selection_completes "GOLD"
              (state_of (updateChartAsset "SILVER" oneTick)))
    as (s' & Hrun & _ & Hticks).
  - apply reach_select. unfold oneTick. apply reach_tick. apply reach_initChart.
    apply reach_init.
  - unfold ASSETS. repeat constructor.
  - destruct (Hticks "09:00:02" (Some {["OIL" := 101%float]})) as [s'' Htick].
    exists s', s''. split; [exact Hrun|exact Htick].
Defined.

End ChartSelectFacts.

(** ** Frames and what their handlers touch ([ws.js]) *)

Module HandlerFacts.
Import Constants Ws Fixture Session Handlers.

Local Ltac split_notin :=
  repeat match goal with
         | H : _ ∉ _ :: _ |- _ => apply not_elem_of_cons in H as [? H]
         | H : _ ∉ _ ++ _ |- _ => apply not_elem_of_app in H as [? H]
         end.

Local Ltac notin :=
  repeat (apply not_elem_of_cons; split; [done|]);
  first [ apply not_elem_of_nil | done ].

Local Ltac lookups :=
  repeat first [ rewrite lookup_alter_ne by done
               | rewrite lookup_insert_ne by done ].

Lemma updateAsset_frame priceMap s asset id :
  id ∉ marketCells asset →
  (Market.updateAsset priceMap s asset).2 !! id = s.2 !! id.
Proof.
  intros Hid. unfold marketCells in Hid. split_notin.
  unfold Market.updateAsset, Ui.byId.
  destruct (priceMap !! asset); [|done]. simpl.
  destruct (alter _ _ s.2 !! _); [|by lookups].
  destruct (Market.previousPrices s.1 !! asset); by lookups.
Qed.

Lemma updatePrices_frame prices s id :
  id ∉ concat (marketCells <$> ASSETS) →
  (Market.updatePrices prices s).2 !! id = s.2 !! id.
Proof.
  unfold Market.updatePrices. destruct prices as [priceMap|]; [|done].
  generalize ASSETS. intros l. revert s.
  induction l as [|asset l IH]; intros s Hid; [done|].
  change (id ∉ marketCells asset ++ concat (marketCells <$> l)) in Hid.
  apply not_elem_of_app in Hid as [Hid1 Hid2].
  simpl. rewrite IH by done. by apply updateAsset_frame.
Qed.

Lemma initMarket_frame (d : dom) id :
  id ∉ "rows" :: "market_rows" :: concat (tableCells <$> ASSETS) →
  Market.initMarket d !! id = d !! id.
Proof.
  intros Hid. apply not_elem_of_cons in Hid as [Hrows Hid].
  apply not_elem_of_cons in Hid as [Hmrows Hid].
  unfold Market.initMarket, Market.initMarketData, Ui.byId.
  destruct (d !! "rows") as [rows|]; [|done].
  set (d1 := foldl _ _ ASSETS).
  assert (d1 !! id = d !! id) as Hd1.
  { unfold d1. rewrite <- (lookup_insert_ne d "rows" id (clear_innerHTML rows)) by done.
    generalize (<["rows":=clear_innerHTML rows]> d). revert Hid.
    generalize ASSETS. intros l. induction l as [|asset l IH]; intros Hid d0; [done|].
    change (id ∉ tableCells asset ++ concat (tableCells <$> l)) in Hid.
    apply not_elem_of_app in Hid as [Hid1 Hid2].
    simpl. rewrite IH by done. unfold tableCells in Hid1. split_notin. by lookups. }
  destruct (d1 !! "market_rows") as [mrows|]; [|done].
  rewrite <- Hd1. rewrite <- (lookup_insert_ne d1 "market_rows" id (clear_innerHTML mrows)) by done.
  generalize (<["market_rows":=clear_innerHTML mrows]> d1). revert Hid.
  generalize ASSETS. intros l. induction l as [|asset l IH]; intros Hid d0; [done|].
  change (id ∉ tableCells asset ++ concat (tableCells <$> l)) in Hid.
  apply not_elem_of_app in Hid as [Hid1 Hid2].
  simpl. rewrite IH by done. unfold tableCells in Hid1. split_notin. by lookups.
Qed.

Lemma painted_frame p b id (e : element) :
  id ∉ writes (PORTFOLIO p) → Panels.painted p b id e = e.
Proof.
  intros Hid. unfold writes in Hid. split_notin.
  unfold Panels.painted, Panels.paint.
  repeat (destruct (decide (id = _)); [done|]). done.
Qed.

Lemma log_frame time m (d : dom) id : id ≠ "log" → Ui.log time m d !! id = d !! id.
Proof.
  intros Hid. unfold Ui.log, Ui.byId. destruct (d !! "log"); [|done].
  by rewrite lookup_insert_ne.
Qed.

Lemma showGameArea_frame show (d : dom) id :
  id ∉ ["gameArea"; "setupScreen"; "lobbyCard"] → Ui.showGameArea show d !! id = d !! id.
Proof.
  intros Hid. split_notin. unfold Ui.showGameArea, Ui.byId.
  destruct (d !! "gameArea"); [|done]. destruct show; by lookups.
Qed.

(** A handler leaves alone every element outside its [writes]. *)
Lemma onmessage_frame time msg (c : client) id :
  id ∉ writes msg →
  document (state_of (onmessage time msg c)) !! id = document c !! id.
Proof.
  intros Hid. destruct msg; unfold writes in Hid.
  - split_notin. unfold onmessage. by rewrite ScreenFacts.assign_in_frame.
  - split_notin. unfold onmessage. by rewrite ScreenFacts.assign_in_frame.
  - split_notin. unfold onmessage.
    repeat (apply ScreenFacts.state_of_and_then; [|intros ? <-; simpl]);
      simpl;
      repeat first
        [ reflexivity
        | rewrite ScreenFacts.assign_in_frame by done
        | rewrite ScreenFacts.renderPlayers_frame by done
        | rewrite ScreenFacts.showLobbyCard_frame by done
        | progress simpl ].
  - apply not_elem_of_app in Hid as [Hid1 Hid2]. split_notin. simpl.
    rewrite initMarket_frame by notin.
    rewrite lookup_alter_ne by done.
    apply showGameArea_frame. notin.
  - split_notin. unfold onmessage.
    apply ScreenFacts.state_of_and_then.
    + by rewrite ScreenFacts.assign_in_frame.
    + intros s <-. simpl. by apply log_frame.
  - apply not_elem_of_cons in Hid as [Htime Hid]. unfold onmessage.
    apply ScreenFacts.state_of_and_then.
    + rewrite ScreenFacts.assign_in_frame by done. simpl.
      by apply updatePrices_frame.
    + intros s <-. by destruct (Chart.pushTickToHistory _ _ _).
  - change (document (state_of (onmessage time (PORTFOLIO p) c)))
      with (Portfolio.renderPortfolio (Some p) (document c)).
    rewrite PanelFacts.renderPortfolio_lookup.
    destruct (document c !! id); simpl; [|done]. by rewrite painted_frame.
  - split_notin. simpl. unfold Leaderboard.renderLeaderboard, Ui.byId.
    destruct (document c !! "lb_rows"); [|done]. by rewrite lookup_insert_ne.
  - split_notin. simpl. by apply log_frame.
  - split_notin. simpl. by apply log_frame.
  - done.
Qed.

Lemma assign_in_lookup id f (c : client) :
  assign_in id f c
  = match document c !! id with
    | Some e => Normal (set_document (<[id := f e]> (document c)) c)
    | None => Thrown c
    end.
Proof. destruct c. unfold assign_in, assign. simpl. by destruct (_ !! id). Qed.

(** The next unguarded write of a handler: either the element is there and
    the handler goes on, or it raises here. *)
Local Ltac assign_case c0 id e H :=
  rewrite (assign_in_lookup id);
  cbn [document set_document set_lobbyId set_userId set_isHost];
  repeat first [ rewrite lookup_insert_ne by done
               | rewrite ScreenFacts.showLobbyCard_frame by done
               | rewrite ScreenFacts.renderPlayers_frame by done ];
  destruct (document c0 !! id) as [e|] eqn:H; cbn [and_then].

Local Ltac present id H :=
  let Hall := fresh in
  intros Hall; destruct (Hall id) as [? ?];
  [unfold lobbyTexts; repeat constructor | congruence].

Local Ltac absent id H :=
  exists id; split; [unfold lobbyTexts, lobbyElements; repeat constructor | exact H].

Lemma lobby_state_outcome time l status hostId rules players (c : client) :
  let r := onmessage time (LOBBY_STATE l status hostId rules players) c in
  match r with
  | Normal c' =>
      (∀ id, id ∈ lobbyElements → is_Some (document c !! id))
      ∧ isHost c' = bool_decide (userId c = Some hostId)
  | Thrown c' =>
      (∃ id, id ∈ lobbyElements ∧ document c !! id = None)
      ∧ document c' !! "btnStart" = document c !! "btnStart"
      ∧ ((∃ id, id ∈ lobbyTexts ∧ document c !! id = None) → isHost c' = isHost c)
      ∧ ((∀ id, id ∈ lobbyTexts → is_Some (document c !! id)) →
         isHost c' = bool_decide (userId c = Some hostId))
  end.
Proof.
  unfold onmessage.
  assign_case c "lobbyIdTxt" e1 H1;
    [|split; [absent "lobbyIdTxt" H1|split; [|split; [done|by present "lobbyIdTxt" H1]]];
      cbn [document set_document set_lobbyId];
      by rewrite ScreenFacts.showLobbyCard_frame].
  assign_case c "lobbyStatus" e2 H2;
    [|split; [absent "lobbyStatus" H2|split; [|split; [done|by present "lobbyStatus" H2]]];
      cbn [document set_document set_lobbyId];
      by rewrite ?lookup_insert_ne, ScreenFacts.showLobbyCard_frame].
  assign_case c "hostIdTxt" e3 H3;
    [|split; [absent "hostIdTxt" H3|split; [|split; [done|by present "hostIdTxt" H3]]];
      cbn [document set_document set_lobbyId];
      by rewrite ?lookup_insert_ne, ScreenFacts.showLobbyCard_frame].
  assign_case c "inviteBox" e4 H4;
    [|split; [absent "inviteBox" H4|split; [|split; [done|by present "inviteBox" H4]]];
      cbn [document set_document set_lobbyId];
      by rewrite ?lookup_insert_ne, ScreenFacts.showLobbyCard_frame].
  assign_case c "ruleCap" e5 H5;
    [|split; [absent "ruleCap" H5|split; [|split; [done|by present "ruleCap" H5]]];
      cbn [document set_document set_lobbyId];
      by rewrite ?lookup_insert_ne, ScreenFacts.showLobbyCard_frame].
  assign_case c "ruleTick" e6 H6;
    [|split; [absent "ruleTick" H6|split; [|split; [done|by present "ruleTick" H6]]];
      cbn [document set_document set_lobbyId];
      by rewrite ?lookup_insert_ne, ScreenFacts.showLobbyCard_frame].
  assign_case c "ruleDur" e7 H7;
    [|split; [absent "ruleDur" H7|split; [|split; [done|by present "ruleDur" H7]]];
      cbn [document set_document set_lobbyId];
      by rewrite ?lookup_insert_ne, ScreenFacts.showLobbyCard_frame].
  assign_case c "btnStart" e8 H8.
  - split; [|done]. intros id Hid. unfold lobbyElements in Hid.
    repeat (apply elem_of_cons in Hid as [->|Hid]; [by eexists|]).
    by apply elem_of_nil in Hid.
  - split; [absent "btnStart" H8|].
    cbn [document set_document set_lobbyId set_isHost].
    split.
    { by rewrite ScreenFacts.renderPlayers_frame, ?lookup_insert_ne,
        ScreenFacts.showLobbyCard_frame. }
    split; [|done].
    intros (id & Hid & Hnone). unfold lobbyTexts in Hid.
    repeat (apply elem_of_cons in Hid as [->|Hid]; [congruence|]).
    by apply elem_of_nil in Hid.
Qed.

Lemma assign_in_fields id f (c : client) :
  let c' := state_of (assign_in id f c) in
  ws c' = ws c ∧ sent c' = sent c ∧ userId c' = userId c ∧ lobbyId c' = lobbyId c
  ∧ isHost c' = isHost c ∧ market c' = market c ∧ charts c' = charts c.
Proof. rewrite assign_in_lookup. by destruct (document c !! id). Qed.

Lemma onmessage_fields time msg (c : client) :
  let c' := state_of (onmessage time msg c) in
  ws c' = ws c ∧ sent c' = sent c
  ∧ userId c' = match msg with HELLO u => Some u | _ => userId c end
  ∧ lobbyId c' = match msg with
                 | INVITE_CODE l | LOBBY_STATE l _ _ _ _ => Some l
                 | _ => lobbyId c
                 end
  ∧ match msg with
    | LOBBY_STATE _ _ _ _ _ => True
    | _ => isHost c' = isHost c
    end.
Proof.
  destruct msg as [u|l|l status hostId rules players| | |prices r|p|rows
                 |side asset qty price|reason|ty];
    unfold onmessage; cbv zeta.
  - pose proof (assign_in_fields "userIdBox"
      (set_textContent [Lit "userId: "; Lit u]) (set_userId (Some u) c)) as H.
    simpl in H. intuition congruence.
  - pose proof (assign_in_fields "inviteBox"
      (set_textContent [Lit "Invite code: "; Lit l]) (set_lobbyId (Some l) c)) as H.
    simpl in H. intuition congruence.
  - repeat (apply (ScreenFacts.state_of_and_then
              (λ s, ws s = ws c ∧ sent s = sent c ∧ userId s = Ws.userId c
                    ∧ Ws.lobbyId s = Some l ∧ True));
            [|intros s Hs;
              match goal with
              | |- context [assign_in ?id ?f ?x] =>
                  pose proof (assign_in_fields id f x) as Hf; cbv zeta in Hf
              end; simpl in *; intuition congruence]).
    match goal with
    | |- context [assign_in ?id ?f ?x] =>
        pose proof (assign_in_fields id f x) as Hf; cbv zeta in Hf
    end. simpl in *. intuition congruence.
  - done.
  - apply (ScreenFacts.state_of_and_then
             (λ s, ws s = ws c ∧ sent s = sent c ∧ userId s = Ws.userId c
                   ∧ Ws.lobbyId s = Ws.lobbyId c ∧ isHost s = isHost c)).
    + pose proof (assign_in_fields "lobbyStatus" (set_textContent [Lit "ENDED"]) c) as Hf.
      cbv zeta in Hf. intuition congruence.
    + intros s Hs. simpl. done.
  - apply (ScreenFacts.state_of_and_then
             (λ s, ws s = ws c ∧ sent s = sent c ∧ userId s = Ws.userId c
                   ∧ Ws.lobbyId s = Ws.lobbyId c ∧ isHost s = isHost c)).
    + match goal with
      | |- context [assign_in ?id ?f ?x] =>
          pose proof (assign_in_fields id f x) as Hf; cbv zeta in Hf
      end. simpl in *. intuition congruence.
    + intros s Hs. by destruct (Chart.pushTickToHistory _ _ _).
  - done.
  - done.
  - done.
  - done.
  - done.
Qed.


Local Ltac closed_notin := apply (bool_decide_unpack _); vm_compute; exact I.

Lemma run_snoc msgs tm (c : client) :
  run (msgs ++ [tm]) c = state_of (onmessage tm.1 tm.2 (run msgs c)).
Proof. unfold run. by rewrite foldl_app. Qed.

(** X13: Frames handled in sequence, whose names, assets, sides and reasons
    are plain strings, leave alone every element that is outside the
    [writes] of each of them, whether their handlers raise or not. *)
Theorem run_writes msgs (c : client) id :
  (∀ tm, tm ∈ msgs → plainFrame tm.2 ∧ id ∉ writes tm.2) →
  document (run msgs c) !! id = document c !! id.
Proof.
  induction msgs as [|tm msgs IH] using rev_ind; intros Hid; [done|].
  rewrite run_snoc, onmessage_frame.
  - apply IH. intros tm' Htm'. apply Hid, elem_of_app. by left.
  - apply (Hid tm), elem_of_app. right. constructor.
Qed.

Lemma run_writes_example :
  document (run [("09:00:00", GAME_ENDED); ("09:00:01", ORDER_REJECT "late")] (init page))
    !! "gameArea"
  = Some hiddenScreen.
Proof.
  rewrite (run_writes [("09:00:00", GAME_ENDED); ("09:00:01", ORDER_REJECT "late")]
             (init page) "gameArea").
  - vm_compute. reflexivity.
  - intros tm Htm.
    repeat (apply elem_of_cons in Htm as [->|Htm];
            [split; [repeat constructor|closed_notin]|]).
    by apply elem_of_nil in Htm.
Defined.

(** X14: Only [LOBBY_STATE] and [GAME_STARTED] change which screens are shown:
    the handler of any other frame keeps the three screens as they are. *)
Theorem screens_change_only_on_lifecycle time msg (c : client) :
  (∀ l status hostId rules players, msg ≠ LOBBY_STATE l status hostId rules players) →
  msg ≠ GAME_STARTED →
  let c' := state_of (onmessage time msg c) in
  setupVisible c' = setupVisible c ∧ lobbyVisible c' = lobbyVisible c
  ∧ tradingVisible c' = tradingVisible c.
Proof.
  intros Hlobby Hstart c'.
  assert (∀ id, id ∈ screens → id ∉ writes msg) as Hout.
  { intros id Hid. unfold screens in Hid.
    destruct msg; try done; try (by edestruct Hlobby);
      repeat (apply elem_of_cons in Hid as [->|Hid]; [closed_notin|]);
      by apply elem_of_nil in Hid. }
  unfold setupVisible, lobbyVisible, tradingVisible, Ui.visible, Ui.byId, c'.
  rewrite !onmessage_frame by (apply Hout; unfold screens; repeat constructor).
  done.
Qed.

Lemma screens_change_only_on_lifecycle_example :
  let c' := state_of (onmessage "09:15:00" GAME_ENDED (init tradingPage)) in
  setupVisible c' = false ∧ lobbyVisible c' = false ∧ tradingVisible c' = true.
Proof.
  destruct (screens_change_only_on_lifecycle "09:15:00" GAME_ENDED (init tradingPage))
    as (H1 & H2 & H3); [discriminate | discriminate |].
  intros c'. fold c' in H1, H2, H3. rewrite H1, H2, H3.
  vm_compute. repeat split.
Defined.

(** X15: No frame opens or closes the leaderboard modal, [LEADERBOARD] included:
    the modal is the same element after any sequence of frames. *)
Theorem frames_never_toggle_leaderboard msgs (c : client) :
  document (run msgs c) !! "leaderboardModal" = document c !! "leaderboardModal".
Proof.
  induction msgs as [|tm msgs IH] using rev_ind; [done|].
  rewrite run_snoc, onmessage_frame; [done|].
  destruct tm as [time msg]. destruct msg; closed_notin.
Qed.

(** X16: Handling frames never sends one and never replaces the socket. *)
Theorem frames_send_nothing msgs (c : client) :
  ws (run msgs c) = ws c ∧ sent (run msgs c) = sent c.
Proof.
  induction msgs as [|tm msgs IH] using rev_ind; [done|].
  rewrite run_snoc.
  pose proof (onmessage_fields tm.1 tm.2 (run msgs c)) as H. cbv zeta in H.
  intuition congruence.
Qed.

(** X17: [userId] changes on [HELLO] only, [lobbyId] on [INVITE_CODE] and
    [LOBBY_STATE] only, and [isHost] on [LOBBY_STATE] only, where it becomes
    [userId === hostId]. *)
Theorem onmessage_identity time msg (c : client) :
  let c' := state_of (onmessage time msg c) in
  (userId c' ≠ userId c → ∃ u, msg = HELLO u ∧ userId c' = Some u)
  ∧ (lobbyId c' ≠ lobbyId c →
     lobbyId c' = match msg with
                  | INVITE_CODE l | LOBBY_STATE l _ _ _ _ => Some l
                  | _ => None
                  end
     ∧ ((∃ l, msg = INVITE_CODE l)
        ∨ ∃ l status hostId rules players, msg = LOBBY_STATE l status hostId rules players))
  ∧ (isHost c' ≠ isHost c →
     ∃ l status hostId rules players,
       msg = LOBBY_STATE l status hostId rules players
       ∧ isHost c' = bool_decide (userId c = Some hostId)).
Proof.
  intros c'.
  pose proof (onmessage_fields time msg c) as (_ & _ & Hu & Hl & Hh).
  fold c' in Hu, Hl, Hh.
  split; [|split].
  - intros Hne. destruct msg; try congruence. eauto.
  - intros Hne. destruct msg; try congruence; eauto 10.
  - intros Hne. destruct msg as [| |l status hostId rules players| | | | | | | |];
      try congruence.
    exists l, status, hostId, rules, players. split; [done|].
    pose proof (lobby_state_outcome time l status hostId rules players c) as Ho.
    cbv zeta in Ho. unfold c' in *.
    destruct (onmessage _ _ c) as [s|s]; simpl in *; [apply Ho|].
    destruct Ho as (_ & _ & Hkeep & Hset).
    destruct (decide (Forall (λ id, is_Some (document c !! id)) lobbyTexts)) as [Hall|Hsome].
    + apply Hset. by apply Forall_forall.
    + apply not_Forall_Exists in Hsome; [|apply _].
      apply Exists_exists in Hsome as (id & Hid & Hnone).
      destruct Hne. apply Hkeep. exists id. split; [done|].
      by apply eq_None_not_Some.
Qed.


(** X19: A [LOBBY_STATE] handler that raises has already recorded the lobby id
    and shown the lobby card; it leaves the start button as it was, and
    when one of the seven text elements is the missing one, it leaves
    [isHost] as it was. *)
Theorem lobby_state_raise_keeps_role time l status hostId rules players (c c' : client) :
  onmessage time (LOBBY_STATE l status hostId rules players) c = Thrown c' →
  lobbyId c' = Some l
  ∧ document c' !! "btnStart" = document c !! "btnStart"
  ∧ (is_Some (document c !! "lobbyCard") → lobbyVisible c' = true)
  ∧ ((∃ id, id ∈ lobbyTexts ∧ document c !! id = None) → isHost c' = isHost c).
Proof.
  intros Hthrown.
  pose proof (lobby_state_outcome time l status hostId rules players c) as H.
  pose proof (onmessage_fields time (LOBBY_STATE l status hostId rules players) c)
    as (_ & _ & _ & Hl & _).
  pose proof (ScreenFacts.lobby_state_shows_lobby time l status hostId rules players c)
    as Hshow.
  cbv zeta in H, Hshow. rewrite Hthrown in H, Hl, Hshow. simpl in Hl, Hshow.
  destruct H as (_ & Hbtn & Hkeep & _).
  repeat split; try done. intros Hcard. by apply Hshow.
Qed.

Lemma lobby_state_raise_keeps_role_example :
  let c' := state_of (onmessage "09:00:00" (LOBBY_STATE "L1" "LOBBY" "U1" DEFAULTS None)
                        (init (delete "ruleCap" page))) in
  lobbyId c' = Some "L1" ∧ isHost c' = false.
Proof.
  intros c'.
  destruct (lobby_state_raise_keeps_role "09:00:00" "L1" "LOBBY" "U1" DEFAULTS None
              (init (delete "ruleCap" page)) c')
    as (Hl & _ & _ & Hrole); [vm_compute; reflexivity|].
  split; [exact Hl|]. rewrite Hrole; [reflexivity|].
  exists "ruleCap". split; [unfold lobbyTexts; repeat constructor|].
  vm_compute. reflexivity.
Defined.

(** X20: After a lobby snapshot, [startGame] sends [START_GAME] exactly when the
    socket is open and the user is the host of the snapshot, whatever the
    status of the lobby. *)
Theorem startGame_after_lobby_state time time' l status hostId rules players (c c' : client) :
  onmessage time (LOBBY_STATE l status hostId rules players) c = Normal c' →
  sent (startGame time' c') = sent c ++ [START_GAME]
  ↔ ws c = Some OPEN ∧ userId c = Some hostId.
Proof.
  intros Hnormal.
  pose proof (lobby_state_outcome time l status hostId rules players c) as H.
  pose proof (onmessage_fields time (LOBBY_STATE l status hostId rules players) c)
    as (Hws & Hsent & _).
  cbv zeta in H. rewrite Hnormal in H, Hws, Hsent. simpl in Hws, Hsent.
  destruct H as [_ Hhost].
  assert (∀ x : outbound, sent c ≠ sent c ++ [x]) as Hgrow.
  { intros x Heq. apply (f_equal length) in Heq. rewrite length_app in Heq.
    simpl in Heq. lia. }
  unfold startGame, ensureConnected. rewrite Hws, Hhost.
  destruct (ws c) as [[]|]; simpl; rewrite ?Hsent;
    try (split; [by intros ?%Hgrow|by intros [? _]]).
  case_bool_decide; simpl; rewrite ?Hsent.
  - done.
  - split; [by intros ?%Hgrow|by intros [_ ?]].
Qed.

Lemma startGame_after_lobby_state_example :
  let c := {| ws := Some OPEN; userId := Some "U1"; lobbyId := None; isHost := false;
              sent := []; document := page; market := Market.init;
              charts := Chart.init |} in
  let c' := state_of (onmessage "09:00:00" (LOBBY_STATE "L1" "RUNNING" "U1" DEFAULTS None) c) in
  sent (startGame "09:00:01" c') = [START_GAME].
Proof.
  intros c c'.
  apply (startGame_after_lobby_state "09:00:00" "09:00:01" "L1" "RUNNING" "U1" DEFAULTS
           None c c').
  - vm_compute. reflexivity.
  - split; reflexivity.
Defined.

(** X21: On a page without the [timeLeft] element a tick raises after the
    market table and the market state are updated: the chart history
    does not get the tick. *)
Theorem tick_without_timer_element time prices remainingSec (c : client) :
  document c !! "timeLeft" = None →
  ∃ c', onmessage time (TICK prices remainingSec) c = Thrown c'
    ∧ (market c', document c') = Market.updatePrices prices (market c, document c)
    ∧ charts c' = charts c.
Proof.
  intros Hnone. unfold onmessage. cbv zeta.
  rewrite assign_in_lookup. cbn [document set_document set_market].
  rewrite updatePrices_frame by closed_notin. cbn [snd]. rewrite Hnone.
  eexists. split; [reflexivity|]. simpl.
  by destruct (Market.updatePrices _ _).
Qed.

Lemma tick_without_timer_element_example :
  ∃ c',
    onmessage "09:00:00" (TICK (Some firstTick) None) openClient = Thrown c'
    ∧ Market.previousPrices (market c') !! "OIL" = Some 100%float
    ∧ Chart.LABELS (charts c') = [].
Proof.
  destruct (tick_without_timer_element "09:00:00" (Some firstTick) None openClient)
    as (c' & Hrun & Hmarket & Hcharts); [vm_compute; reflexivity|].
  exists c'. split; [exact Hrun|]. split.
  - apply (f_equal fst) in Hmarket. simpl in Hmarket. rewrite Hmarket.
    vm_compute. reflexivity.
  - rewrite Hcharts. reflexivity.
Defined.

(** X22: [joinLobby] sends at most one frame, a [JOIN_LOBBY] with a non-empty
    code on an open socket; it alerts only on an open socket and an empty
    code, and then it sends nothing and changes nothing. *)
Theorem joinLobby_never_sends_empty_code toUpperCase time (c : client) :
  let r := Lobby.joinLobby toUpperCase time c in
  (sent (state_of r.1) = sent c
   ∨ ∃ code name, code ≠ "" ∧ ws c = Some OPEN
       ∧ sent (state_of r.1) = sent c ++ [JOIN_LOBBY code name])
  ∧ (r.2 ≠ [] →
     r.1 = Normal c ∧ ws c = Some OPEN
     ∧ ∃ joinCode, document c !! "joinCode" = Some joinCode
                   ∧ toUpperCase (value joinCode) = "").
Proof.
  unfold Lobby.joinLobby, ensureConnected, Ui.byId.
  destruct (ws c) as [[]|] eqn:Hws; simpl; try (split; [by left|done]).
  destruct (document c !! "name") as [n|]; simpl; [|split; [by left|done]].
  destruct (document c !! "joinCode") as [j|]; simpl; [|split; [by left|done]].
  rewrite !WsFacts.or_empty_id.
  destruct (String.eqb _ "") eqn:Hcode; simpl.
  - split; [by left|]. intros _. split; [done|]. split; [done|].
    exists j. split; [done|]. by apply String.eqb_eq.
  - split; [|done]. right. eexists _, _. split; [|done].
    by apply String.eqb_neq.
Qed.

End HandlerFacts.

(** ** The market table across ticks and games ([market.js], [ws.js]) *)

Module TableFacts.
Import Constants Ws Fixture Session Market MarketTrace.

Local Ltac id_ne :=
  let H := fresh in
  intros H;
  first [ congruence
        | apply String.app_inj in H; congruence
        | vm_compute in H; discriminate H ].

Local Ltac look :=
  repeat first [ rewrite lookup_insert_eq | rewrite lookup_insert_ne by id_ne ].

(** X23: A tick leaves alone the state and the cells of every asset that it
    does not price, and of every name that is not in [ASSETS]. *)
Theorem tick_touches_priced_assets priceMap (s : Market.state * dom) asset :
  asset ∉ ASSETS ∨ priceMap !! asset = None →
  view_of asset (updatePrices (Some priceMap) s) = view_of asset s.
Proof.
  intros H. rewrite MarketFacts.updatePrices_view.
  case_bool_decide; [|done]. destruct H as [?|Hnone]; [done|by rewrite Hnone].
Qed.

Lemma tick_touches_priced_assets_example :
  view_of "GOLD" (updatePrices (Some firstTick) (Market.init, tradingPage))
  = view_of "GOLD" (Market.init, tradingPage).
Proof.
  apply (tick_touches_priced_assets firstTick (Market.init, tradingPage) "GOLD").
  right. vm_compute. reflexivity.
Defined.

Lemma last_drop_lt {A} (l : list A) n : n < length l → last (drop n l) = last l.
Proof.
  intros Hn. rewrite !last_lookup, lookup_drop, length_drop. f_equal. lia.
Qed.

(** X24: In every state of [market.js], the previous price of an asset is the
    newest point of its sparkline history; both are missing together. *)
Theorem previous_price_is_newest_point ticks m asset :
  reach ticks m →
  previousPrices m !! asset = priceHistory m !! asset ≫= last.
Proof.
  intros Hreach. destruct (MarketFacts.reach_view ticks m asset Hreach) as [-> ->].
  case_bool_decide; [|done]. simpl.
  destruct (carried asset ticks) as [|p l] eqn:Hc; [done|].
  rewrite last_drop_lt; [done|]. simpl. lia.
Qed.

Lemma previous_price_is_newest_point_example :
  let m := (applyTicks twentyOneTicks (Market.init, page)).1 in
  previousPrices m !! "OIL" = priceHistory m !! "OIL" ≫= last.
Proof.
  intros m.
  apply (previous_price_is_newest_point twentyOneTicks m "OIL").
  apply (MarketFacts.reach_applyTicks twentyOneTicks page).
Defined.

(** A cell that each round of a [forEach] creates for its own asset. *)
Lemma forEach_cell (step : dom → string → dom) (key : string → string) (v : element)
    (l : list string) (d : dom) asset :
  (∀ d a, step d a !! key a = Some v) →
  (∀ d a b, a ≠ b → step d a !! key b = d !! key b) →
  asset ∈ l → foldl step d l !! key asset = Some v.
Proof.
  intros Hown Hother. induction l as [|a l IH] using rev_ind; intros Hin.
  - by apply elem_of_nil in Hin.
  - rewrite foldl_app. simpl. destruct (decide (a = asset)) as [->|Hne]; [done|].
    rewrite Hother by done. apply IH.
    apply elem_of_app in Hin as [?|Hin]; [done|].
    apply list_elem_of_singleton in Hin. congruence.
Qed.

Lemma forEach_frame (step : dom → string → dom) (l : list string) (d : dom) id :
  (∀ d a, step d a !! id = d !! id) → foldl step d l !! id = d !! id.
Proof.
  intros Hstep. revert d. induction l as [|a l IH]; intros d; [done|].
  simpl. by rewrite IH.
Qed.

Lemma initMarket_cells (d : dom) asset :
  is_Some (d !! "rows") → is_Some (d !! "market_rows") → asset ∈ ASSETS →
  initMarket d !! ("p_" +:+ asset) = Some priceCell
  ∧ initMarket d !! ("mp_" +:+ asset) = Some priceCell
  ∧ initMarket d !! ("mchg_" +:+ asset) = Some changeCell
  ∧ initMarket d !! ("mchgp_" +:+ asset) = Some changeCell
  ∧ initMarket d !! ("market_row_" +:+ asset) = Some blank.
Proof.
  intros [rows Hrows] [mrows Hmrows] Hasset.
  unfold initMarket, initMarketData, Ui.byId. rewrite Hrows.
  rewrite forEach_frame by (intros; by look). rewrite lookup_insert_ne by done.
  rewrite Hmrows.
  split.
  { rewrite forEach_frame by (intros; by look). rewrite lookup_insert_ne by id_ne.
    apply (forEach_cell _ (λ a, "p_" +:+ a)); [intros; by look|intros; by look|done]. }
  repeat split.
  - apply (forEach_cell _ (λ a, "mp_" +:+ a)); [intros; by look|intros; by look|done].
  - apply (forEach_cell _ (λ a, "mchg_" +:+ a)); [intros; by look|intros; by look|done].
  - apply (forEach_cell _ (λ a, "mchgp_" +:+ a)); [intros; by look|intros; by look|done].
  - apply (forEach_cell _ (λ a, "market_row_" +:+ a)); [intros; by look|intros; by look|done].
Qed.

(** X25: [GAME_STARTED] rebuilds the market table with dashes but keeps
    [previousPrices]: the first tick of the new game shows, for an asset
    priced before, the change from the last price of the earlier game,
    not the dash of a first price. *)
Theorem restart_keeps_price_memory time time' priceMap remainingSec asset prev price
    (c : client) :
  is_Some (document c !! "rows") → is_Some (document c !! "market_rows") →
  asset ∈ ASSETS →
  previousPrices (market c) !! asset = Some prev → priceMap !! asset = Some price →
  let c1 := state_of (onmessage time GAME_STARTED c) in
  let c2 := state_of (onmessage time' (TICK (Some priceMap) remainingSec) c1) in
  document c1 !! ("mchg_" +:+ asset) = Some changeCell
  ∧ document c2 !! ("mchg_" +:+ asset)
    = Some (set_classList (changeClass (price - prev))
              (set_textContent (signed (price - prev)) changeCell)).
Proof.
  intros Hrows Hmrows Hasset Hprev Hprice c1 c2.
  assert (market c1 = market c) as Hm by done.
  assert (∀ id, id ∈ ["rows"; "market_rows"] →
            is_Some (alter (set_textContent [Lit "RUNNING"]) "lobbyStatus"
                       (Ui.showGameArea true (document c)) !! id)) as Hpage.
  { intros id Hid.
    repeat (apply elem_of_cons in Hid as [->|Hid];
            [rewrite lookup_alter_ne by done;
             rewrite HandlerFacts.showGameArea_frame by (repeat (apply not_elem_of_cons; split; [done|]);
                                            apply not_elem_of_nil); done|]).
    by apply elem_of_nil in Hid. }
  destruct (initMarket_cells
              (alter (set_textContent [Lit "RUNNING"]) "lobbyStatus"
                 (Ui.showGameArea true (document c))) asset)
    as (Hp & Hmp & Hmchg & Hmchgp & Hrow);
    [apply Hpage; repeat constructor..|done|].
  change (document c1 !! ("mp_" +:+ asset) = Some priceCell) in Hmp.
  change (document c1 !! ("mchg_" +:+ asset) = Some changeCell) in Hmchg.
  split; [done|].
  assert (document c2 !! ("mchg_" +:+ asset)
          = (updatePrices (Some priceMap) (market c1, document c1)).2
              !! ("mchg_" +:+ asset)) as ->.
  { unfold c2, onmessage. cbv zeta.
    apply (ScreenFacts.state_of_and_then
             (λ s, document s !! ("mchg_" +:+ asset)
                   = (updatePrices (Some priceMap) (market c1, document c1)).2
                       !! ("mchg_" +:+ asset))).
    - rewrite ScreenFacts.assign_in_frame; [done|].
      unfold ASSETS in Hasset.
      repeat (apply elem_of_cons in Hasset as [->|Hasset]; [by cbv|]).
      by apply elem_of_nil in Hasset.
    - intros s Hs. by destruct (Chart.pushTickToHistory _ _ _). }
  pose proof (f_equal v_mchg
                (MarketFacts.updatePrices_view priceMap (market c1, document c1) asset))
    as Hview.
  rewrite bool_decide_eq_true_2 in Hview by done.
  rewrite Hprice in Hview. cbn [view_of v_mchg step_view fst snd v_mp v_prev] in Hview.
  rewrite Hview, Hmp, Hm, Hprev, Hmchg. done.
Qed.

Lemma restart_keeps_price_memory_example :
  let c := run [("09:00:00", GAME_STARTED); ("09:00:02", TICK (Some firstTick) None);
                ("09:15:00", GAME_ENDED)] (Ws.init page) in
  let c1 := state_of (onmessage "09:20:00" GAME_STARTED c) in
  let c2 := state_of (onmessage "09:20:02" (TICK (Some secondTick) None) c1) in
  textContent <$> document c1 !! "mchg_OIL" = Some [Lit "-"]
  ∧ textContent <$> document c2 !! "mchg_OIL" = Some [Lit "+"; Fixed2 (101 - 100)].
Proof.
  intros c c1 c2.
  destruct (restart_keeps_price_memory "09:20:00" "09:20:02" secondTick None "OIL"
              100%float 101%float c)
    as [H1 H2];
    [vm_compute; eauto | vm_compute; eauto | unfold ASSETS; repeat constructor
    | vm_compute; reflexivity | vm_compute; reflexivity |].
  fold c1 in H1. fold c1 c2 in H2.
  change ("mchg_" +:+ "OIL") with "mchg_OIL" in H1, H2.
  rewrite H1, H2. split; reflexivity.
Defined.

End TableFacts.

(** ** The news ticker ([ticker.js]) *)

Module TickerFacts.
Import Fixture Ticker TickerTrace.

Lemma updateTickerContent_well_formed s d :
  well_formed s → well_formed (updateTickerContent (s, d)).1.
Proof.
  intros (Hlen & i & Hi & Hlt). unfold updateTickerContent, Ui.byId. simpl.
  destruct (d !! "tickerText"); simpl; [|by split; eauto].
  split; [done|]. rewrite Hi. simpl.
  rewrite bool_decide_eq_false_2 by lia.
  eexists. split; [done|]. apply Nat.mod_upper_bound. lia.
Qed.

Lemma unshift_length (headline : string) (l : list string) :
  20 ≤ length l ≤ 30 →
  let l' := headline :: l in
  20 ≤ length (if bool_decide (30 < length l') then removelast l' else l') ≤ 30
  ∧ length l ≤ length (if bool_decide (30 < length l') then removelast l' else l').
Proof.
  intros Hlen l'. case_bool_decide as Hfull.
  - rewrite removelast_firstn_len, length_take. unfold l' in *. simpl in *. lia.
  - unfold l' in *. simpl in *. lia.
Qed.

(** X26: In every state of [ticker.js] the list holds between 20 and 30
    headlines and [currentIndex] is a number that indexes it. *)
Theorem ticker_index_in_range s :
  reachable s → well_formed s.
Proof.
  induction 1 as [|id s d _ IH|s d _ IH|headline s d _ IH|s _ IH].
  - split; [simpl; lia|]. exists 0. split; [done|simpl; lia].
  - unfold initTicker, Ui.byId. simpl.
    destruct (d !! "tickerText") eqn:Hel; [|done].
    pose proof (updateTickerContent_well_formed s d IH) as Hwf.
    unfold updateTickerContent, Ui.byId in *. simpl in *. rewrite Hel in *. simpl in *.
    done.
  - by apply updateTickerContent_well_formed.
  - unfold addTickerHeadline. cbv zeta. apply updateTickerContent_well_formed.
    destruct IH as (Hlen & i & Hi & Hlt).
    pose proof (unshift_length ("ALERT: " +:+ headline) _ Hlen) as [Hlen' Hgrow].
    cbv zeta in Hlen', Hgrow.
    unfold well_formed. cbn [fst snd NEWS_HEADLINES currentIndex].
    split; [done|]. exists i. split; [done|]. lia.
  - unfold stopTicker. by destruct (tickerInterval s).
Qed.

Lemma ticker_index_in_range_example :
  well_formed (addTickerHeadline "Game started" (init, {["tickerText" := blank]})).1.
Proof.
  apply (ticker_index_in_range
           (addTickerHeadline "Game started" (init, {["tickerText" := blank]})).1).
  apply reach_add. apply reach_load.
Defined.

(** X27: On a list of 20 to 30 headlines that [currentIndex] indexes, a rotation
    shows the five headlines from [currentIndex] on, wrapping around at
    the end of the list, so that none is [undefined]; the index then
    moves one step, back to 0 after the last headline. *)
Theorem ticker_shows_five_consecutive s d el :
  well_formed s → d !! "tickerText" = Some el →
  ∃ i el',
    currentIndex s = Some i
    ∧ (updateTickerContent (s, d)).2 !! "tickerText" = Some el'
    ∧ textContent el'
      = tickerHTML (take 5 (drop i (NEWS_HEADLINES s ++ NEWS_HEADLINES s)))
    ∧ currentIndex (updateTickerContent (s, d)).1
      = Some (if bool_decide (S i = length (NEWS_HEADLINES s)) then 0 else S i).
Proof.
  intros (Hlen & i & Hi & Hlt) Hel.
  exists i. unfold updateTickerContent, Ui.byId. simpl. rewrite Hel. simpl.
  eexists. split; [done|]. split; [by rewrite lookup_insert_eq|]. split.
  - simpl. f_equal. unfold shown. rewrite Hi.
    set (l := NEWS_HEADLINES s) in *.
    assert (∀ k, k < 5 →
              headline_at l (index_mod (Some i) k (length l))
              = default "undefined" ((l ++ l) !! (i + k))) as Hat.
    { intros k Hk. unfold headline_at, index_mod.
      rewrite bool_decide_eq_false_2 by lia. simpl. f_equal.
      destruct (decide (i + k < length l)) as [Hsmall|Hwrap].
      - by rewrite Nat.mod_small, lookup_app_l.
      - rewrite lookup_app_r by lia. f_equal.
        symmetry. apply (Nat.mod_unique _ _ 1); lia. }
    change ((λ k, headline_at l (index_mod (Some i) k (length l))) <$> [0; 1; 2; 3; 4])
      with [headline_at l (index_mod (Some i) 0 (length l));
            headline_at l (index_mod (Some i) 1 (length l));
            headline_at l (index_mod (Some i) 2 (length l));
            headline_at l (index_mod (Some i) 3 (length l));
            headline_at l (index_mod (Some i) 4 (length l))].
    rewrite !Hat by lia. rewrite <- !lookup_drop.
    assert (5 ≤ length (drop i (l ++ l))) as Hwin.
    { rewrite length_drop, length_app. lia. }
    destruct (drop i (l ++ l)) as [|h0 [|h1 [|h2 [|h3 [|h4 rest]]]]];
      simpl in Hwin; try lia. done.
  - simpl. rewrite Hi. simpl. rewrite bool_decide_eq_false_2 by lia. f_equal.
    case_bool_decide as Hend.
    + replace (i + 1) with (length (NEWS_HEADLINES s)) by lia.
      apply Nat.Div0.mod_same.
    + replace (S i) with (i + 1) by lia. apply Nat.mod_small. lia.
Qed.

Lemma ticker_shows_five_consecutive_example :
  ∃ el',
    (updateTickerContent (init, {["tickerText" := blank]})).2 !! "tickerText" = Some el'
    ∧ textContent el' = tickerHTML (take 5 (NEWS_HEADLINES init))
    ∧ currentIndex (updateTickerContent (init, {["tickerText" := blank]})).1 = Some 1.
Proof.
  destruct (ticker_shows_five_consecutive init {["tickerText" := blank]} blank)
    as (i & el' & Hi & Hel & Htext & Hnext);
    [split; [simpl; lia|exists 0; split; [reflexivity|simpl; lia]]
    | vm_compute; reflexivity |].
  injection Hi as <-.
  exists el'. split; [exact Hel|]. split; [exact Htext|exact Hnext].
Defined.

Lemma addTickerHeadline_headlines headline sd :
  length (NEWS_HEADLINES sd.1) ≤ 30 →
  NEWS_HEADLINES (addTickerHeadline headline sd).1
  = take 30 (("ALERT: " +:+ headline) :: NEWS_HEADLINES sd.1).
Proof.
  intros Hlen. unfold addTickerHeadline. cbv zeta.
  set (l := _ :: NEWS_HEADLINES sd.1).
  assert (NEWS_HEADLINES
            (updateTickerContent
               ({| NEWS_HEADLINES := if bool_decide (30 < length l) then removelast l else l;
                   currentIndex := currentIndex sd.1; timers := timers sd.1;
                   tickerInterval := tickerInterval sd.1 |}, sd.2)).1
          = if bool_decide (30 < length l) then removelast l else l) as ->.
  { unfold updateTickerContent, Ui.byId. simpl. by destruct (sd.2 !! "tickerText"). }
  case_bool_decide as Hfull.
  - rewrite removelast_firstn_len. f_equal. unfold l in *. simpl in *. lia.
  - rewrite take_ge; [done|]. unfold l in *. simpl in *. lia.
Qed.

(** X28: Headlines added one after the other are prefixed with [ALERT: ] and
    put in front, newest first; the list is cut to its first 30, so the
    oldest headlines fall off its end. *)
Theorem ticker_keeps_newest_30 headlines sd :
  length (NEWS_HEADLINES sd.1) ≤ 30 →
  NEWS_HEADLINES (addAll headlines sd).1
  = take 30 (reverse ((λ headline, "ALERT: " +:+ headline) <$> headlines) ++ NEWS_HEADLINES sd.1).
Proof.
  intros Hlen. induction headlines as [|h headlines IH] using rev_ind.
  - simpl. by rewrite take_ge.
  - unfold addAll in *. rewrite foldl_app. simpl.
    rewrite addTickerHeadline_headlines.
    + rewrite IH, fmap_app, reverse_app. simpl.
      change (reverse [?x]) with [x]. simpl. by rewrite take_take.
    + rewrite IH, length_take. lia.
Qed.

Lemma ticker_keeps_newest_30_example :
  take 2 (NEWS_HEADLINES (addAll ["Game started"; "Game ended"] (init, ∅)).1)
  = ["ALERT: Game ended"; "ALERT: Game started"].
Proof.
  rewrite (ticker_keeps_newest_30 ["Game started"; "Game ended"] (init, ∅)).
  - vm_compute. reflexivity.
  - vm_compute. lia.
Defined.

(** X29: [stopTicker] clears the interval started last: after a second
    [initTicker] the first interval keeps running once the ticker is
    stopped, and a further [stopTicker] does nothing. *)
Theorem stopTicker_stops_last_interval_only id1 id2 s d d' :
  is_Some (d !! "tickerText") → is_Some (d' !! "tickerText") → id1 ≠ id2 →
  let s1 := (initTicker id1 (s, d)).1 in
  let s2 := (initTicker id2 (s1, d')).1 in
  id1 ∈ timers (stopTicker s2)
  ∧ tickerInterval (stopTicker s2) = None
  ∧ stopTicker (stopTicker s2) = stopTicker s2.
Proof.
  intros [el Hel] [el' Hel'] Hne.
  unfold initTicker, updateTickerContent, stopTicker, Ui.byId. simpl.
  rewrite Hel. simpl. rewrite Hel'. simpl.
  split; [|done].
  apply list_elem_of_filter. split; [done|].
  apply elem_of_app. left. apply elem_of_app. right. constructor.
Qed.

Lemma stopTicker_stops_last_interval_only_example :
  let d : dom := {["tickerText" := blank]} in
  let s1 := (initTicker 1 (init, d)).1 in
  let s2 := (initTicker 2 (s1, d)).1 in
  1%positive ∈ timers (stopTicker s2).
Proof.
  intros d s1 s2.
  apply (stopTicker_stops_last_interval_only 1 2 init d d);
    [vm_compute; eauto | vm_compute; eauto | discriminate].
Defined.

End TickerFacts.
